(** * STL-10 tools: data loading and fold selection

    A shallow embedding of [stl10_tools.py] (the functions [get_data],
    [extract_images], [extract_labels], [pick_fold] and the module-level
    [augmentation_params]) together with the parts of Python, numpy and
    gfile they call, and the properties proved about them.

    Python strings are the byte strings of Python 2 ([string], a list of
    8-bit [ascii]); Python integers are [Z]; numpy arrays are strided views
    on buffers that live in a heap. *)

From Stdlib Require Import ZArith String Ascii List PrimFloat.
From stdpp Require Import base numbers option list strings gmap.

Local Open Scope Z_scope.
#[local] Set Warnings "-inexact-float,-abstract-large-number".

(** ** Exceptions, events and the world *)

Inductive exn :=
  | AssertionError (msg : string)
  | IOError (path : string)
  | ValueError
  | OverflowError
  | IndexError
  | TypeError.

Inductive pyarg :=
  | ArgStr (s : string)
  | ArgInt (z : Z).

(** What a run leaves behind besides its result: the lines handed to
    [logging.info] and the files opened through [gfile.Open]. *)
Inductive event :=
  | LogInfo (fmt : string) (args : list pyarg)
  | FileOpen (path : string).

Definition loc := positive.

(** [files] is the file system (never written by this module), [heap] holds
    the buffers of the numpy arrays, [trace] the events so far (oldest
    first), [entropy g] the stream of raw draws of the [g]-th generator
    seeded from the operating system and [seeded] how many were created. *)
Record world := World {
  files : gmap string string;
  heap : gmap loc (list Z);
  trace : list event;
  entropy : nat → nat → nat;
  seeded : nat
}.

Definition set_heap (h : gmap loc (list Z)) (w : world) : world :=
  World (files w) h (trace w) (entropy w) (seeded w).
Definition set_trace (t : list event) (w : world) : world :=
  World (files w) (heap w) t (entropy w) (seeded w).
Definition set_seeded (n : nat) (w : world) : world :=
  World (files w) (heap w) (trace w) (entropy w) n.

(** ** The monad of Python computations: state and exceptions *)

Inductive outcome (A : Type) :=
  | Ok (a : A)
  | Raise (e : exn).
Arguments Ok {A} a.
Arguments Raise {A} e.

Definition M (A : Type) : Type := world → outcome A * world.

Global Instance M_ret : MRet M := λ A a w, (Ok a, w).
Global Instance M_bind : MBind M := λ A B f m w,
  match m w with
  | (Ok a, w') => f a w'
  | (Raise e, w') => (Raise e, w')
  end.

Definition raise {A} (e : exn) : M A := λ w, (Raise e, w).

Definition emit (e : event) : M unit := λ w, (Ok tt, set_trace (trace w ++ [e]) w).

(** [assert cond, msg] *)
Definition py_assert (cond : bool) (msg : string) : M unit :=
  if cond then mret tt else raise (AssertionError msg).

(** [logging.info(fmt, args)] *)
Definition logging_info (fmt : string) (args : list pyarg) : M unit :=
  emit (LogInfo fmt args).

(** [with gfile.Open(path) as f: f.read()] *)
Definition file_content (path : string) : M string := λ w,
  match files w !! path with
  | Some s => (Ok s, w)
  | None => (Raise (IOError path), w)
  end.

Definition gfile_read (path : string) : M string :=
  emit (FileOpen path);; file_content path.

(** A new buffer at an address not in use. *)
Definition alloc (buf : list Z) : M loc := λ w,
  let l := fresh (dom (heap w)) in (Ok l, set_heap (<[l := buf]> (heap w)) w).

Definition read_buf (l : loc) : M (list Z) := λ w, (Ok (heap w !!! l), w).

Definition write_buf (l : loc) (buf : list Z) : M unit := λ w,
  (Ok tt, set_heap (<[l := buf]> (heap w)) w).

(** ** numpy arrays *)

Inductive dtype := uint8 | uint16.

Definition wrap (t : dtype) (z : Z) : Z :=
  match t with
  | uint8 => z mod 256
  | uint16 => z mod 65536
  end.

(** An array is a view: the buffer it reads, its element type and, per
    axis, the extent and the stride (in elements). *)
Record ndarray := NDArray {
  base : loc;
  dtype_of : dtype;
  dims : list (nat * nat)
}.

Definition shape (a : ndarray) : list nat := (dims a).*1.
Definition ndim (a : ndarray) : nat := length (dims a).

Definition product (l : list nat) : nat := foldr Nat.mul 1%nat l.
Definition arr_size (a : ndarray) : nat := product (shape a).

(** The axes of a C-contiguous array of the given shape. *)
Fixpoint c_dims (sh : list nat) : list (nat * nat) :=
  match sh with
  | [] => []
  | n :: sh' => (n, product sh') :: c_dims sh'
  end.

(** The buffer offsets of the elements, in C (row-major) order. *)
Fixpoint offsets (off : nat) (ds : list (nat * nat)) : list nat :=
  match ds with
  | [] => [off]
  | (n, s) :: ds' => concat ((λ i, offsets (off + i * s) ds') <$> seq 0 n)
  end.

(** The buffer offset of the element at a multi-index, [None] when the
    index has the wrong rank or leaves an axis. *)
Fixpoint index_offset (ds : list (nat * nat)) (idx : list nat) : option nat :=
  match ds, idx with
  | [], [] => Some 0%nat
  | (n, s) :: ds', i :: idx' =>
      if decide (i < n)%nat then (λ r, i * s + r)%nat <$> index_offset ds' idx'
      else None
  | _, _ => None
  end.

Definition buffer (w : world) (a : ndarray) : list Z := heap w !!! base a.

(** [a[i0, i1, ...]] for an index inside the array. *)
Definition getitem (w : world) (a : ndarray) (idx : list nat) : option Z :=
  o ← index_offset (dims a) idx; Some (buffer w a !!! o).

(** The elements in C order, what [a.ravel()] and [a.tostring()] see. *)
Definition elements (w : world) (a : ndarray) : list Z :=
  (λ o, buffer w a !!! o) <$> offsets 0 (dims a).

Definition byte_val (c : ascii) : Z := Z.of_nat (nat_of_ascii c).
Definition bytes_of_string (s : string) : list Z :=
  byte_val <$> list_ascii_of_string s.
Definition string_of_bytes (l : list Z) : string :=
  string_of_list_ascii ((λ z, ascii_of_nat (Z.to_nat z)) <$> l).

(** [np.fromstring(s, np.uint8)]: a fresh one-dimensional array holding the
    bytes of [s]. *)
Definition np_fromstring_uint8 (s : string) : M ndarray :=
  l ← alloc (bytes_of_string s);
  mret (NDArray l uint8 [(String.length s, 1%nat)]).

(** The shape [a.reshape(newshape)] gets: a negative entry stands for the
    one unknown extent, which is the size divided by the product of the
    others. *)
Definition resolve_shape (sz : nat) (newshape : list Z) : option (list nat) :=
  let known := product (Z.to_nat <$> filter (λ d, 0 ≤ d) newshape) in
  match length (filter (λ d, d < 0) newshape) with
  | O => if decide (known = sz) then Some (Z.to_nat <$> newshape) else None
  | S O =>
      if decide (known = 0%nat ∨ (sz mod known)%nat ≠ 0%nat) then None
      else Some ((λ d, if decide (d < 0) then (sz / known)%nat else Z.to_nat d)
                   <$> newshape)
  | _ => None
  end.

(** [a.reshape(newshape)]: a view on the same buffer when [a] is
    C-contiguous, a copy otherwise. *)
Definition np_reshape (a : ndarray) (newshape : list Z) : M ndarray :=
  match resolve_shape (arr_size a) newshape with
  | None => raise ValueError
  | Some sh =>
      if decide (dims a = c_dims (shape a)) then
        mret (NDArray (base a) (dtype_of a) (c_dims sh))
      else
        buf ← read_buf (base a);
        l ← alloc ((λ o, buf !!! o) <$> offsets 0 (dims a));
        mret (NDArray l (dtype_of a) (c_dims sh))
  end.

(** [np.transpose(a, axes)]: a view whose [k]-th axis is axis [axes[k]] of
    [a]; [axes] has to be a permutation of the axes of [a]. *)
Definition np_transpose (a : ndarray) (axes : list nat) : M ndarray :=
  if decide (axes ≡ₚ seq 0 (ndim a)) then
    mret (NDArray (base a) (dtype_of a) ((λ k, dims a !!! k) <$> axes))
  else raise ValueError.

(** [a -= v], in place: every element of the view is overwritten with the
    difference, reduced to the element type. *)
Definition np_isub (a : ndarray) (v : Z) : M unit :=
  buf ← read_buf (base a);
  write_buf (base a)
    (foldr (λ o b, alter (λ x, wrap (dtype_of a) (x - v)) o b) buf
       (offsets 0 (dims a))).

(** [len(a)] *)
Definition py_len (a : ndarray) : M Z :=
  match dims a with
  | [] => raise TypeError
  | (n, _) :: _ => mret (Z.of_nat n)
  end.

(** [a[idx]] for a one-dimensional integer array [idx]: a fresh
    C-contiguous array whose [k]-th entry along the first axis is entry
    [idx[k]] of [a]; an index outside [[-n, n)] is an [IndexError]. *)
Definition norm_index (n : nat) (i : Z) : option nat :=
  if decide (0 ≤ i < Z.of_nat n) then Some (Z.to_nat i)
  else if decide (- Z.of_nat n ≤ i < 0) then Some (Z.to_nat (i + Z.of_nat n))
  else None.

Definition np_take (a : ndarray) (idx : list Z) : M ndarray :=
  match dims a with
  | [] => raise IndexError
  | (n, s) :: ds =>
      match mapM (norm_index n) idx with
      | None => raise IndexError
      | Some rows =>
          buf ← read_buf (base a);
          l ← alloc (concat ((λ i, (λ o, buf !!! o) <$> offsets (i * s) ds) <$> rows));
          mret (NDArray l (dtype_of a) (c_dims (length idx :: ds.*1)))
      end
  end.

(** ** Text: lines, [str.split] and [int] *)

Definition newline : ascii := "010"%char.

(** The lines a file object yields when iterated: each ends with its
    newline, except possibly the last. *)
Fixpoint file_lines (s : string) : list string :=
  match s with
  | EmptyString => []
  | String c r =>
      if decide (c = newline) then String c EmptyString :: file_lines r
      else match file_lines r with
           | [] => [String c EmptyString]
           | l :: ls => String c l :: ls
           end
  end.

(** [with gfile.Open(path, 'r') as f: for line in f.iteritems(): ...]:
    [f.iteritems()] is taken to yield what iterating over [f] yields, the
    lines of the file in order. *)
Definition gfile_lines (path : string) : M (list string) :=
  s ← gfile_read path; mret (file_lines s).

(** [s.split(sep)] for a one-character separator: cut at every occurrence,
    empty pieces included. *)
Fixpoint split_on (sep : ascii) (s : string) : list string :=
  match s with
  | EmptyString => [EmptyString]
  | String c r =>
      if decide (c = sep) then EmptyString :: split_on sep r
      else match split_on sep r with
           | [] => [String c EmptyString]
           | p :: ps => String c p :: ps
           end
  end.

(** [l[:-1]] *)
Definition but_last {A} (l : list A) : list A := take (length l - 1) l.

Fixpoint drop_spaces (l : list ascii) : list ascii :=
  match l with
  | c :: r => if Ascii.is_space c then drop_spaces r else l
  | [] => []
  end.

Definition strip (l : list ascii) : list ascii :=
  rev (drop_spaces (rev (drop_spaces l))).

Fixpoint digits (acc : Z) (l : list ascii) : option Z :=
  match l with
  | [] => Some acc
  | c :: r => d ← Ascii.is_nat c; digits (10 * acc + Z.of_nat d) r
  end.

(** [int(s)]: surrounding white space, an optional sign, decimal digits. *)
Definition py_int (s : string) : option Z :=
  match strip (list_ascii_of_string s) with
  | [] => None
  | c :: r =>
      if decide (c = "+"%char) then
        match r with [] => None | _ => digits 0 r end
      else if decide (c = "-"%char) then
        match r with [] => None | _ => Z.opp <$> digits 0 r end
      else digits 0 (c :: r)
  end.

(** The conversion of one string entry to [np.uint16]: the integer it
    spells has to fit a machine word and is then cut to its low 16 bits. *)
Definition in_long (z : Z) : bool := bool_decide (- 2 ^ 63 ≤ z < 2 ^ 63).

Definition to_uint16 (s : string) : option Z :=
  z ← py_int s; if in_long z then Some (wrap uint16 z) else None.

(** [np.array(rows).astype(np.uint16)] for a list of lists of strings: rows
    of one length make a two-dimensional table of the converted entries;
    rows of different lengths or an entry that is no integer are a
    [ValueError], an integer beyond the machine word an [OverflowError].
    An empty list makes an empty one-dimensional array, here the table
    without rows. *)
Definition rectangular {A} (rows : list (list A)) : bool :=
  match rows with
  | [] => true
  | r :: rs => forallb (λ r', bool_decide (length r' = length r)) rs
  end.

Definition parse_table (rows : list (list string)) : option (list (list Z)) :=
  if rectangular rows then mapM (mapM to_uint16) rows else None.

Definition all_integers (rows : list (list string)) : bool :=
  forallb (forallb (λ s, bool_decide (is_Some (py_int s)))) rows.

Definition np_array_astype_uint16 (rows : list (list string)) : M (list (list Z)) :=
  match parse_table rows with
  | Some t => mret t
  | None =>
      raise (if rectangular rows && all_integers rows then OverflowError
             else ValueError)
  end.

(** [t[i]] for a Python integer [i] along the first axis. *)
Definition np_row (t : list (list Z)) (i : Z) : M (list Z) :=
  match norm_index (length t) i with
  | Some k => match t !! k with Some r => mret r | None => raise IndexError end
  | None => raise IndexError
  end.

(** ** Random sampling *)

(** A generator: the stream of its raw draws and how many were used. *)
Record RandomState := MkRandomState {
  stream : nat → nat;
  used : nat
}.

(** [np.random.RandomState()], seeded from the operating system. *)
Definition new_RandomState : M RandomState := λ w,
  (Ok (MkRandomState (entropy w (seeded w)) 0), set_seeded (S (seeded w)) w).

(** A draw from [[0, max]]: the next raw draw, reduced to the interval
    (which value is drawn, and how likely, is left to the stream). *)
Definition rk_interval (max : nat) (st : RandomState) : nat * RandomState :=
  ((stream st (used st) mod S max)%nat, MkRandomState (stream st) (S (used st))).

(** [x[i], x[j] = x[j], x[i]] *)
Definition swap (x : list nat) (i j : nat) : list nat :=
  <[j := x !!! i]> (<[i := x !!! j]> x).

(** [for i in reversed(range(1, n)): j = rk_interval(i); swap x[i], x[j]],
    entered with [i = n - 1]. *)
Fixpoint shuffle_from (i : nat) (x : list nat) (st : RandomState)
    : list nat * RandomState :=
  match i with
  | O => (x, st)
  | S i' => let '(j, st') := rk_interval i st in shuffle_from i' (swap x i j) st'
  end.

(** [rng.permutation(n)]: [arange(n)], shuffled. *)
Definition permutation (n : nat) (st : RandomState) : list nat * RandomState :=
  shuffle_from (n - 1) (seq 0 n) st.

(** [rng.choice(n, size, False)] for integers [n] and [size]: the first
    [size] entries of a random permutation of [range(n)]. An empty
    population and a sample larger than the population are a [ValueError];
    so is, here, a negative size (what numpy does with one has changed over
    its versions, and no property below is about it). *)
Definition rng_choice (st : RandomState) (n size : Z) : M (list Z * RandomState) :=
  if decide (n ≤ 0) then raise ValueError
  else if decide (size < 0) then raise ValueError
  else if decide (size > n) then raise ValueError
  else let '(p, st') := permutation (Z.to_nat n) st in
       mret (Z.of_nat <$> take (Z.to_nat size) p, st').

(** ** The module *)

Definition DATADIR : string := "/work/haeusser/data/stl10_binary/".
Definition NUM_LABELS : Z := 10.
Definition IMAGE_SHAPE : list Z := [96; 96; 3].

(** Extract the images into a 4D uint8 numpy array [index, y, x, depth]. *)
Definition extract_images (filename : string) (shape : list Z) : M ndarray :=
  logging_info "Extracting %s" [ArgStr filename];;
  s ← gfile_read filename;
  imgs ← np_fromstring_uint8 s;
  imgs ← np_reshape imgs (-1 :: reverse shape);
  imgs ← np_transpose imgs [0; 3; 2; 1]%nat;
  mret imgs.

(** Extract the labels into a 1D uint8 numpy array [index]. *)
Definition extract_labels (filename : string) : M ndarray :=
  logging_info "Extracting %s" [ArgStr filename];;
  s ← gfile_read filename;
  lbls ← np_fromstring_uint8 s;
  np_isub lbls 1;;
  mret lbls.

Definition fold_file : string := "path_to_stl10_binary/fold_indices.txt".

(** Choose subset of labeled training data. *)
Definition pick_fold (images labels : ndarray) (fold : Z) : M (ndarray * ndarray) :=
  py_assert (bool_decide (-1 ≤ fold ≤ 9))
    "Fold index needs to be in [0, 9] or -1 for all data.";;
  if decide (fold > -1) then
    logging_info "Selecting fold %d" [ArgInt fold];;
    lines ← gfile_lines fold_file;
    fold_indices ← np_array_astype_uint16
                     ((λ line, but_last (split_on " " line)) <$> lines);
    row ← np_row fold_indices fold;
    images ← np_take images row;
    row ← np_row fold_indices fold;
    labels ← np_take labels row;
    mret (images, labels)
  else
    logging_info "Using all folds." [];;
    mret (images, labels).

(** What [get_data] returns: a tuple (images, labels), with [None] for the
    labels of the unlabeled split, or [None] when no branch returns. *)
Inductive pyret :=
  | RTuple (images : ndarray) (labels : option ndarray)
  | RNone.

(** Utility for convenient data loading. *)
Definition get_data (name : string) (max_num : Z) : M pyret :=
  if decide (name = "train") then
    images ← extract_images (DATADIR +:+ "train_X.bin") IMAGE_SHAPE;
    labels ← extract_labels (DATADIR +:+ "train_y.bin");
    mret (RTuple images (Some labels))
  else if decide (name = "test") then
    images ← extract_images (DATADIR +:+ "test_X.bin") IMAGE_SHAPE;
    labels ← extract_labels (DATADIR +:+ "test_y.bin");
    mret (RTuple images (Some labels))
  else if decide (name = "unlabeled") then
    res ← extract_images (DATADIR +:+ "unlabeled_X.bin") IMAGE_SHAPE;
    num_images ← py_len res;
    if decide (num_images > max_num) then
      rng ← new_RandomState;
      n ← py_len res;
      '(idx, _) ← rng_choice rng n max_num;
      sample ← np_take res idx;
      mret (RTuple sample None)
    else
      mret (RTuple res None)
  else mret RNone.

(** The default of [max_num]. *)
Definition get_data_default (name : string) : M pyret := get_data name 20000.

(** Dataset specific augmentation parameters. *)
Inductive pyval :=
  | PyFloat (f : float)
  | PyInt (z : Z).

Definition augmentation_params : gmap string pyval :=
  <["max_rotate_angle" := PyInt 10]>
  (<["gray_prob" := PyFloat 0.5]>
  (<["hue_max_delta" := PyFloat 0.1]>
  (<["saturation_upper" := PyFloat 1.2]>
  (<["saturation_lower" := PyFloat 0.5]>
  (<["brightness_max_delta" := PyFloat 1.3]>
  (<["max_crop_percentage" := PyFloat 0.2]> ∅)))))).

(** ** Definitions used to state the properties *)

(** The axes of the array [extract_images] returns for [count] images:
    extent and stride of the image, row, column and channel axis. *)
Definition image_dims (count : nat) : list (nat * nat) :=
  [(count, 27648%nat); (96%nat, 1%nat); (96%nat, 96%nat); (3%nat, 9216%nat)].

(** [a.tostring()]: the elements in C order, as a byte string. *)
Definition np_tostring (a : ndarray) : M string := λ w,
  (Ok (string_of_bytes (elements w a)), w).

(** The way back from an image batch to the byte stream: undo the
    transpose (the axes [0, 3, 2, 1] are their own inverse), undo the
    reshape, read the bytes. *)
Definition images_to_bytes (a : ndarray) : M string :=
  b ← np_transpose a [0; 3; 2; 1]%nat;
  c ← np_reshape b [-1];
  np_tostring c.

(** [behaves m evs]: whatever the outcome of [m], the file system is as
    before, every buffer that existed is unchanged, the trace grew by
    exactly [evs], and the outcome is no assertion error. *)
Definition behaves {A} (m : M A) (evs : list event) : Prop :=
  ∀ w r w', m w = (r, w') →
    files w' = files w ∧
    heap w ⊆ heap w' ∧
    trace w' = trace w ++ evs ∧
    ∀ msg, r ≠ Raise (AssertionError msg).

(** An array of the world: its buffer is in the heap (a view whose buffer
    is gone cannot arise in Python). *)
Definition live (w : world) (a : ndarray) : Prop := base a ∈ dom (heap w).

(** The pieces [pick_fold] keeps of each line of the fold file. *)
Definition fold_pieces (s : string) : list (list string) :=
  (λ line, but_last (split_on " " line)) <$> file_lines s.

(** The buffer [np_take] fills: one block per index, the elements of that
    entry of [a] in C order. *)
Definition taken (buf : list Z) (s : nat) (ds : list (nat * nat)) (rows : list nat)
    : list Z :=
  concat ((λ i, (λ o, buf !!! o) <$> offsets (i * s) ds) <$> rows).

(** A line of the fold file as the dataset writes it: every index is
    followed by one space, then the line ends. *)
Definition dataset_line (toks : list string) : string :=
  foldr (λ t acc, t +:+ String " "%char acc) (String newline EmptyString) toks.

Fixpoint has_char (c : ascii) (s : string) : bool :=
  match s with
  | EmptyString => false
  | String c' r => bool_decide (c' = c) || has_char c r
  end.

(** The complete list of white-space separated integers of a line. *)
Definition line_indices (line : string) : option (list Z) :=
  mapM py_int (String.words line).

(** [pick_fold] selecting the complete list of indices of line [fold] of
    the fold file. *)
Definition selects_complete_line (w : world) (images labels : ndarray) (fold : Z)
    : Prop :=
  ∃ s line idxs images' labels' w',
    files w !! fold_file = Some s ∧
    file_lines s !! Z.to_nat fold = Some line ∧
    line_indices line = Some idxs ∧
    pick_fold images labels fold w = (Ok (images', labels'), w') ∧
    shape images' = length idxs :: tail (shape images) ∧
    shape labels' = length idxs :: tail (shape labels) ∧
    ∀ k v, idxs !! k = Some v →
      ∀ inner,
        getitem w' images' (k :: inner) = getitem w images (Z.to_nat v :: inner) ∧
        getitem w' labels' (k :: inner) = getitem w labels (Z.to_nat v :: inner).

(** A small world: three one-pixel images, their labels, and a fold file
    with the given text. *)
Definition tiny_images : ndarray := NDArray 1%positive uint8 (c_dims [3; 1; 1; 1]%nat).
Definition tiny_labels : ndarray := NDArray 2%positive uint8 (c_dims [3]%nat).
Definition tiny_world (fold_text : string) : world :=
  World {[ fold_file := fold_text ]}
    (<[2%positive := [0; 1; 2]]> {[ 1%positive := [10; 20; 30] ]})
    [] (λ _ k, k) 0.

(** The bindings of [augmentation_params], in the order of assignment. *)
Definition augmentation_items : list (string * pyval) :=
  [("max_crop_percentage", PyFloat 0.2);
   ("brightness_max_delta", PyFloat 1.3);
   ("saturation_lower", PyFloat 0.5);
   ("saturation_upper", PyFloat 1.2);
   ("hue_max_delta", PyFloat 0.1);
   ("gray_prob", PyFloat 0.5);
   ("max_rotate_angle", PyInt 10)].

Definition float_between (lo hi : float) (v : pyval) : bool :=
  match v with
  | PyFloat f => PrimFloat.leb lo f && PrimFloat.leb f hi
  | PyInt _ => false
  end.

Definition float_at_least (lo : float) (v : pyval) : bool :=
  match v with
  | PyFloat f => PrimFloat.leb lo f
  | PyInt _ => false
  end.

Definition float_below (v v' : pyval) : bool :=
  match v, v' with
  | PyFloat f, PyFloat f' => PrimFloat.ltb f f'
  | _, _ => false
  end.

(** Modelled from the spec: the valid range of each knob. The grayscale
    probability lies in [0, 1] and the hue delta in [0, 0.5], as the spec
    names them; the crop percentage is a fraction of the image, the
    brightness delta and the rotation angle are magnitudes, and the
    saturation factors are a lower and an upper bound of an interval of
    non-negative factors. The augmentation functions that read the knobs
    are not part of this module. *)
Definition knobs_in_range (m : gmap string pyval) : Prop :=
  (∃ v, m !! "max_crop_percentage" = Some v ∧ float_between 0 1 v = true) ∧
  (∃ v, m !! "brightness_max_delta" = Some v ∧ float_at_least 0 v = true) ∧
  (∃ lo hi, m !! "saturation_lower" = Some lo ∧ m !! "saturation_upper" = Some hi ∧
     float_at_least 0 lo = true ∧ float_below lo hi = true) ∧
  (∃ v, m !! "hue_max_delta" = Some v ∧ float_between 0 0.5 v = true) ∧
  (∃ v, m !! "gray_prob" = Some v ∧ float_between 0 1 v = true) ∧
  (∃ z, m !! "max_rotate_angle" = Some (PyInt z) ∧ 0 ≤ z).

(** The file [get_data] reads for the unlabeled split. *)
Definition unlabeled_file : string := DATADIR +:+ "unlabeled_X.bin".

(** Worlds to run the functions in: a file system, an empty heap, no
    events yet and generators that draw 0, 1, 2, ... *)
Definition fresh_world (fs : gmap string string) : world :=
  World fs ∅ [] (λ _ k, k) 0.

(** The bytes of [count] images: byte [k] is [k mod 256]. *)
Definition byte_block : list ascii := ascii_of_nat <$> seq 0 256.
Definition raw_images (count : nat) : string :=
  string_of_list_ascii (concat (replicate (count * 108) byte_block)).

(** Three labels: 1, 10 and 0. *)
Definition raw_labels : string :=
  String "001"%char (String "010"%char (String "000"%char EmptyString)).

(** ** Definitions used to state further properties *)

(** The axes of the array [extract_images] returns for [count] images of
    shape [[h, wd, c]]: extent and stride of the image, row, column and
    channel axis. *)
Definition batch_dims (count h wd c : nat) : list (nat * nat) :=
  [(count, c * wd * h); (h, 1); (wd, h); (c, wd * h)]%nat.

(** How often a character occurs in a string. *)
Fixpoint count_char (c : ascii) (s : string) : nat :=
  match s with
  | EmptyString => 0
  | String c' r => ((if decide (c' = c) then 1 else 0) + count_char c r)%nat
  end.

(** [frames m]: whatever the outcome of [m], the file system is as before,
    every buffer that existed is unchanged and the trace has only grown. *)
Definition frames {A} (m : M A) : Prop :=
  ∀ w r w', m w = (r, w') →
    files w' = files w ∧
    heap w ⊆ heap w' ∧
    trace w `prefix_of` trace w'.

(** The files of a training split of three images, with a fold file of one
    line. *)
Definition train_files : gmap string string :=
  <[DATADIR +:+ "train" +:+ "_X.bin" := raw_images 3]>
  (<[DATADIR +:+ "train" +:+ "_y.bin" := raw_labels]>
  {[ fold_file := "2 0 " +:+ String newline EmptyString ]}).

(** * Properties *)

(** ** Running computations *)

Lemma run_bind {A B} (m : M A) (f : A → M B) (w : world) :
  (m ≫= f) w =
  match m w with
  | (Ok a, w') => f a w'
  | (Raise e, w') => (Raise e, w')
  end.
Proof. reflexivity. Qed.

Lemma run_bind_ok {A B} (m : M A) (f : A → M B) (w w' : world) (a : A) :
  m w = (Ok a, w') → (m ≫= f) w = f a w'.
Proof. intros H. rewrite run_bind, H. reflexivity. Qed.

Ltac run_unfold :=
  unfold logging_info, gfile_lines, gfile_read, file_content, emit, alloc,
    read_buf, write_buf, raise, py_assert;
  unfold mbind, M_bind, mret, M_ret.

(** ** Lists, offsets and buffers *)

Lemma length_bytes_of_string (s : string) :
  length (bytes_of_string s) = String.length s.
Proof.
  unfold bytes_of_string. rewrite length_fmap.
  induction s as [|c s IH]; simpl; [done | by rewrite IH].
Qed.

Lemma bytes_of_string_range (s : string) :
  Forall (λ b, 0 ≤ b < 256) (bytes_of_string s).
Proof.
  unfold bytes_of_string. apply Forall_fmap, Forall_forall. intros c _.
  unfold byte_val. simpl. pose proof (nat_ascii_bounded c). lia.
Qed.

Lemma string_of_bytes_of_string (s : string) :
  string_of_bytes (bytes_of_string s) = s.
Proof.
  unfold string_of_bytes, bytes_of_string.
  induction s as [|c s IH]; simpl; [done |].
  unfold byte_val at 1. rewrite Nat2Z.id, ascii_nat_embedding. by f_equal.
Qed.

Lemma lookup_total_seq {A} `{Inhabited A} (l : list A) :
  (λ o, l !!! o) <$> seq 0 (length l) = l.
Proof.
  apply list_eq. intros i. rewrite list_lookup_fmap.
  destruct (decide (i < length l)%nat) as [Hi|Hi].
  - rewrite lookup_seq_lt by done. simpl.
    destruct (lookup_lt_is_Some_2 l i Hi) as [x Hx].
    rewrite Hx. f_equal. by apply list_lookup_total_correct.
  - rewrite lookup_seq_ge by lia. simpl. symmetry. apply lookup_ge_None. lia.
Qed.

(** Updating a buffer at pairwise different offsets changes exactly those
    positions. *)
Lemma lookup_foldr_alter {A} (f : A → A) (l : list nat) (buf : list A) (i : nat) :
  NoDup l →
  foldr (λ o b, alter f o b) buf l !! i =
  if decide (i ∈ l) then f <$> buf !! i else buf !! i.
Proof.
  induction 1 as [|o l Ho Hl IH]; [done |]. cbn [foldr].
  rewrite (decide_ext (i ∈ o :: l) (i = o ∨ i ∈ l)) by apply elem_of_cons.
  destruct (decide (i = o)) as [->|Hne].
  - rewrite list_lookup_alter_eq, IH.
    rewrite (decide_False (P := o ∈ l)) by done.
    by rewrite decide_True by tauto.
  - rewrite list_lookup_alter_ne by done. rewrite IH.
    destruct (decide (i ∈ l)).
    + by rewrite decide_True by tauto.
    + by rewrite decide_False by tauto.
Qed.

Lemma foldr_alter_seq {A} (f : A → A) (buf : list A) :
  foldr (λ o b, alter f o b) buf (seq 0 (length buf)) = f <$> buf.
Proof.
  apply list_eq. intros i.
  rewrite lookup_foldr_alter by apply NoDup_seq.
  rewrite list_lookup_fmap. case_decide as Hi; [done |].
  rewrite elem_of_seq in Hi.
  rewrite (proj2 (lookup_ge_None buf i)) by lia. done.
Qed.

Lemma concat_seq_blocks (P off n : nat) :
  concat ((λ i, seq (off + i * P) P) <$> seq 0 n) = seq off (n * P).
Proof.
  revert off. induction n as [|n IH]; intros off; [done |].
  rewrite seq_S, fmap_app, concat_app. simpl. rewrite IH, app_nil_r.
  replace (P + n * P)%nat with (n * P + P)%nat by lia.
  by rewrite seq_app.
Qed.

(** The offsets of a C-contiguous view are consecutive. *)
Lemma offsets_c_dims (sh : list nat) (off : nat) :
  offsets off (c_dims sh) = seq off (product sh).
Proof.
  revert off. induction sh as [|n sh IH]; intros off; [done |].
  simpl. erewrite list_fmap_ext; [apply concat_seq_blocks |].
  intros ? i _. apply IH.
Qed.

Lemma getitem_1d (w : world) (a : ndarray) (n k : nat) :
  dims a = [(n, 1%nat)] → (k < n)%nat →
  getitem w a [k] = Some (buffer w a !!! k).
Proof.
  intros Hd Hk. unfold getitem. rewrite Hd. simpl.
  rewrite decide_True by done. simpl. do 2 f_equal. lia.
Qed.

(** ** Labels *)

(** What [extract_labels] leaves in the world: the two events and one new
    buffer, holding the decremented bytes. *)
Lemma extract_labels_run (w : world) (filename s : string) :
  files w !! filename = Some s →
  let l := fresh (dom (heap w)) in
  extract_labels filename w =
    (Ok (NDArray l uint8 [(String.length s, 1%nat)]),
     World (files w)
       (<[l := (λ b, (b - 1) mod 256) <$> bytes_of_string s]> (heap w))
       (trace w ++ [LogInfo "Extracting %s" [ArgStr filename]; FileOpen filename])
       (entropy w) (seeded w)).
Proof.
  intros Hf l. unfold extract_labels, np_fromstring_uint8, np_isub.
  run_unfold. cbn -[offsets]. rewrite Hf. cbn -[offsets].
  rewrite lookup_total_insert_eq.
  change [(String.length s, 1%nat)] with (c_dims [String.length s]) at 2.
  rewrite (offsets_c_dims [String.length s] 0). simpl product.
  rewrite Nat.mul_1_r, <- length_bytes_of_string, foldr_alter_seq.
  unfold set_heap, set_trace. simpl.
  rewrite insert_insert_eq, <- app_assoc. reflexivity.
Qed.

(** C2: for every label file content, [extract_labels] returns a
    one-dimensional uint8 array with one entry per input byte, each the
    byte minus one modulo 256; for a byte in [1, 10] that is the byte
    minus one. *)
Theorem extract_labels_spec (w : world) (filename s : string) :
  files w !! filename = Some s →
  ∃ a w',
    extract_labels filename w = (Ok a, w') ∧
    dtype_of a = uint8 ∧
    shape a = [String.length s] ∧
    elements w' a = (λ b, (b - 1) mod 256) <$> bytes_of_string s ∧
    Forall (λ v, 0 ≤ v < 256) (elements w' a) ∧
    ∀ k b, bytes_of_string s !! k = Some b →
      getitem w' a [k] = Some ((b - 1) mod 256) ∧
      (1 ≤ b ≤ 10 → getitem w' a [k] = Some (b - 1)).
Proof.
  intros Hf. eexists _, _. split; [apply (extract_labels_run _ _ _ Hf) |].
  set (l := fresh (dom (heap w))).
  set (buf := (λ b, (b - 1) mod 256) <$> bytes_of_string s).
  set (w' := World _ _ _ _ _). set (a := NDArray _ _ _).
  assert (Hbuf : buffer w' a = buf) by apply lookup_total_insert_eq.
  assert (Hlen : length buf = String.length s).
  { unfold buf. by rewrite length_fmap, length_bytes_of_string. }
  assert (Hel : elements w' a = buf).
  { unfold elements. rewrite Hbuf. unfold a. cbn [dims].
    change [(String.length s, 1%nat)] with (c_dims [String.length s]).
    rewrite offsets_c_dims. cbn [product foldr].
    rewrite Nat.mul_1_r, <- Hlen. apply lookup_total_seq. }
  split_and!; try done.
  - rewrite Hel. unfold buf. apply Forall_fmap, Forall_forall.
    intros b _. simpl. apply Z.mod_pos_bound. lia.
  - intros k b Hk.
    assert (Hget : getitem w' a [k] = Some ((b - 1) mod 256)).
    { rewrite (getitem_1d w' a (String.length s) k); [| done |].
      - rewrite Hbuf. f_equal. apply list_lookup_total_correct. unfold buf.
        by rewrite list_lookup_fmap, Hk.
      - apply lookup_lt_Some in Hk. by rewrite length_bytes_of_string in Hk. }
    split; [done |]. intros Hb. rewrite Hget. f_equal.
    apply Z.mod_small. lia.
Qed.

(** ** Images *)

Lemma resolve_shape_images (count : nat) :
  resolve_shape (count * 27648) [-1; 3; 96; 96]
  = Some [count; 3%nat; 96%nat; 96%nat].
Proof.
  unfold resolve_shape.
  replace (filter (λ d, 0 ≤ d) [-1; 3; 96; 96]) with [3; 96; 96] by done.
  replace (filter (λ d, d < 0) [-1; 3; 96; 96]) with [-1] by done.
  change (product (Z.to_nat <$> [3; 96; 96])) with 27648%nat.
  cbn [length]. rewrite Nat.Div0.mod_mul, Nat.div_mul by done.
  rewrite decide_False; [| intros [H|H]; [discriminate H | by apply H]].
  cbn [fmap list_fmap]. rewrite decide_True by lia.
  rewrite !decide_False by lia. reflexivity.
Qed.

Lemma image_axes_perm : [0; 3; 2; 1]%nat ≡ₚ seq 0 4.
Proof. apply (bool_decide_unpack _). by vm_compute. Qed.

(** What [extract_images] leaves in the world: the two events and one new
    buffer, holding the bytes of the file as they are; the result is a
    transposed view on it. *)
Lemma extract_images_run (w : world) (filename s : string) (count : nat) :
  files w !! filename = Some s →
  String.length s = (count * 27648)%nat →
  let l := fresh (dom (heap w)) in
  extract_images filename IMAGE_SHAPE w =
    (Ok (NDArray l uint8 (image_dims count)),
     World (files w) (<[l := bytes_of_string s]> (heap w))
       (trace w ++ [LogInfo "Extracting %s" [ArgStr filename]; FileOpen filename])
       (entropy w) (seeded w)).
Proof.
  intros Hf Hlen l. unfold extract_images, np_fromstring_uint8.
  run_unfold. cbn -[np_reshape np_transpose]. rewrite Hf.
  cbn -[np_reshape np_transpose].
  unfold np_reshape. unfold arr_size, shape. cbn [dims fmap list_fmap fst product foldr].
  rewrite Nat.mul_1_r, Hlen.
  change (reverse IMAGE_SHAPE) with [3; 96; 96].
  rewrite resolve_shape_images. rewrite decide_True by done.
  run_unfold. unfold np_transpose, ndim. cbn [dims c_dims length base dtype_of].
  rewrite decide_True by apply image_axes_perm.
  unfold set_heap, set_trace, raise, mret, M_ret. cbn -[product].
  rewrite <- app_assoc. reflexivity.
Qed.

Lemma index_offset_image (count i y x c : nat) :
  (i < count)%nat → (y < 96)%nat → (x < 96)%nat → (c < 3)%nat →
  index_offset (image_dims count) [i; y; x; c]
  = Some (i * 27648 + c * 9216 + x * 96 + y)%nat.
Proof.
  intros Hi Hy Hx Hc. unfold image_dims. cbn [index_offset].
  rewrite !decide_True by done. cbn [fmap option_fmap option_map].
  f_equal. lia.
Qed.

Lemma image_offset_bound (count i y x c : nat) :
  (i < count)%nat → (y < 96)%nat → (x < 96)%nat → (c < 3)%nat →
  (i * 27648 + c * 9216 + x * 96 + y < count * 27648)%nat.
Proof.
  intros. change 27648%nat with (3 * 96 * 96)%nat.
  change 9216%nat with (96 * 96)%nat. nia.
Qed.

Lemma getitem_image (w : world) (l : loc) (t : dtype) (count i y x c : nat) :
  (i < count)%nat → (y < 96)%nat → (x < 96)%nat → (c < 3)%nat →
  getitem w (NDArray l t (image_dims count)) [i; y; x; c]
  = Some ((heap w !!! l) !!! (i * 27648 + c * 9216 + x * 96 + y)%nat).
Proof.
  intros Hi Hy Hx Hc. unfold getitem. cbn [dims].
  by rewrite index_offset_image.
Qed.

Lemma Z_inhabitant_byte : 0 ≤ (inhabitant : Z) < 256.
Proof. by compute. Qed.

(** Every element read through a view on a buffer of bytes is a byte. *)
Lemma elements_range (w : world) (a : ndarray) :
  Forall (λ b, 0 ≤ b < 256) (buffer w a) →
  Forall (λ v, 0 ≤ v < 256) (elements w a).
Proof.
  intros Hbuf. unfold elements. apply Forall_fmap, Forall_forall.
  intros o _. simpl.
  destruct (buffer w a !! o) as [b|] eqn:Hb.
  - rewrite (list_lookup_total_correct _ _ _ Hb).
    by eapply (Forall_lookup_1 _ _ _ _ Hbuf).
  - rewrite list_lookup_total_alt, Hb. apply Z_inhabitant_byte.
Qed.

(** ** Transposing permutes the elements *)

Lemma concat_fmap_nil {A B} (l : list A) :
  concat ((λ _, @nil B) <$> l) = [].
Proof. induction l as [|x l IH]; [done | by simpl]. Qed.

Lemma concat_fmap_app_perm {A B} (g h : A → list B) (l : list A) :
  concat ((λ y, g y ++ h y) <$> l) ≡ₚ concat (g <$> l) ++ concat (h <$> l).
Proof.
  induction l as [|y l IH]; [done |]. simpl. rewrite IH.
  rewrite <- !app_assoc. f_equiv. rewrite !app_assoc.
  apply Permutation_app; [apply Permutation_app_comm | done].
Qed.

Lemma concat_fmap_swap {A B C} (f : A → B → list C) (l1 : list A) (l2 : list B) :
  concat ((λ x, concat ((λ y, f x y) <$> l2)) <$> l1)
  ≡ₚ concat ((λ y, concat ((λ x, f x y) <$> l1)) <$> l2).
Proof.
  induction l1 as [|x l1 IH]; simpl.
  - by rewrite concat_fmap_nil.
  - rewrite IH. symmetry.
    apply (concat_fmap_app_perm (λ y, f x y) (λ y, concat ((λ x, f x y) <$> l1))).
Qed.

Lemma offsets_swap (off n s m t : nat) (ds : list (nat * nat)) :
  offsets off ((n, s) :: (m, t) :: ds) ≡ₚ offsets off ((m, t) :: (n, s) :: ds).
Proof.
  cbn [offsets].
  rewrite (concat_fmap_swap (λ i j, offsets (off + i * s + j * t) ds)).
  apply reflexive_eq. f_equal. apply list_fmap_ext. intros _ j _.
  f_equal. apply list_fmap_ext. intros _ i _. f_equal. lia.
Qed.

Lemma offsets_skip (off n s : nat) (ds ds' : list (nat * nat)) :
  (∀ o, offsets o ds ≡ₚ offsets o ds') →
  offsets off ((n, s) :: ds) ≡ₚ offsets off ((n, s) :: ds').
Proof.
  intros H. cbn [offsets]. generalize (seq 0 n). intros l.
  induction l as [|i l IH]; [done |]. simpl. by rewrite IH, H.
Qed.

(** Reordering the axes of a view reorders its elements and nothing more. *)
Lemma offsets_Permutation (ds ds' : list (nat * nat)) :
  ds ≡ₚ ds' → ∀ off, offsets off ds ≡ₚ offsets off ds'.
Proof.
  induction 1 as [|[n s] ds ds' _ IH|[n s] [m t] ds|ds1 ds2 ds3 _ IH1 _ IH2];
    intros off.
  - done.
  - by apply offsets_skip.
  - apply offsets_swap.
  - by rewrite IH1.
Qed.

(** ** The round trip through [extract_images] *)

Lemma image_dims_transposed (count : nat) :
  (λ k, image_dims count !!! k) <$> [0; 3; 2; 1]%nat
  = c_dims [count; 3; 96; 96]%nat.
Proof. reflexivity. Qed.

Lemma image_dims_perm (count : nat) :
  image_dims count ≡ₚ c_dims [count; 3; 96; 96]%nat.
Proof.
  rewrite <- image_dims_transposed. unfold image_dims.
  cbn [fmap list_fmap lookup_total list_lookup_total].
  constructor. rewrite (Permutation_swap (96, 96)%nat).
  apply (Permutation_app_comm [_; _] [_]).
Qed.

Lemma elements_images (w : world) (l : loc) (count : nat) :
  length (heap w !!! l) = (count * 27648)%nat →
  elements w (NDArray l uint8 (image_dims count)) ≡ₚ heap w !!! l.
Proof.
  intros Hlen. unfold elements, buffer. cbn [base dims].
  rewrite (offsets_Permutation _ _ (image_dims_perm count) 0).
  rewrite offsets_c_dims.
  replace (product [count; 3; 96; 96]%nat) with (length (heap w !!! l))
    by exact Hlen.
  by rewrite lookup_total_seq.
Qed.

Lemma images_to_bytes_run (w : world) (l : loc) (count : nat) :
  length (heap w !!! l) = (count * 27648)%nat →
  images_to_bytes (NDArray l uint8 (image_dims count)) w
  = (Ok (string_of_bytes (heap w !!! l)), w).
Proof.
  intros Hlen. unfold images_to_bytes, np_transpose, ndim.
  cbn [dims image_dims length base dtype_of].
  rewrite decide_True by apply image_axes_perm.
  rewrite (run_bind_ok _ _ w w (NDArray l uint8 (c_dims [count; 3; 96; 96]%nat)))
    by done.
  unfold np_reshape, arr_size, shape. cbn [dims base dtype_of].
  replace (product (c_dims [count; 3; 96; 96]%nat).*1) with (count * 27648)%nat
    by (cbn [c_dims fmap list_fmap fst product foldr]; f_equal).
  assert (Hres : resolve_shape (count * 27648) [-1] = Some [(count * 27648)%nat]).
  { unfold resolve_shape.
    replace (filter (λ d, 0 ≤ d) [-1]) with (@nil Z) by done.
    replace (filter (λ d, d < 0) [-1]) with [-1] by done.
    cbn [length fmap list_fmap product foldr].
    rewrite decide_False; [| intros [H|H]; [discriminate H |]].
    - rewrite decide_True by lia. by rewrite Nat.div_1_r.
    - apply H, Nat.mod_1_r. }
  rewrite Hres. rewrite decide_True by done.
  rewrite (run_bind_ok _ _ w w (NDArray l uint8 (c_dims [(count * 27648)%nat])))
    by done.
  unfold np_tostring, elements, buffer. cbn [base dims].
  rewrite offsets_c_dims. cbn [product foldr].
  rewrite Nat.mul_1_r, <- Hlen. by rewrite lookup_total_seq.
Qed.

Lemma image_offset_decompose (count k : nat) :
  (k < count * 27648)%nat →
  ∃ i y x c, (i < count)%nat ∧ (y < 96)%nat ∧ (x < 96)%nat ∧ (c < 3)%nat ∧
    k = (i * 27648 + c * 9216 + x * 96 + y)%nat.
Proof.
  intros Hk.
  exists (k / 27648)%nat, (((k mod 27648) mod 9216) mod 96)%nat,
    (((k mod 27648) mod 9216) / 96)%nat, ((k mod 27648) / 9216)%nat.
  pose proof (Nat.div_mod_eq k 27648) as E1.
  pose proof (Nat.mod_upper_bound k 27648 ltac:(done)) as B1.
  revert E1 B1 Hk. generalize (k / 27648)%nat (k mod 27648)%nat.
  intros i r1 E1 B1 Hk.
  pose proof (Nat.div_mod_eq r1 9216) as E2.
  pose proof (Nat.mod_upper_bound r1 9216 ltac:(done)) as B2.
  revert E2 B2. generalize (r1 / 9216)%nat (r1 mod 9216)%nat.
  intros c r2 E2 B2.
  pose proof (Nat.div_mod_eq r2 96) as E3.
  pose proof (Nat.mod_upper_bound r2 96 ltac:(done)) as B3.
  revert E3 B3. generalize (r2 / 96)%nat (r2 mod 96)%nat.
  intros x y E3 B3.
  change 27648%nat with (3 * 96 * 96)%nat in *.
  change 9216%nat with (96 * 96)%nat in *.
  split_and!; lia.
Qed.

(** Two byte strings of the same length whose image arrays agree at every
    index are the same string. *)
Lemma images_agree_bytes_eq (count : nat) (b1 b2 : list Z) :
  length b1 = (count * 27648)%nat →
  length b2 = (count * 27648)%nat →
  (∀ i y x c, (i < count)%nat → (y < 96)%nat → (x < 96)%nat → (c < 3)%nat →
     b1 !!! (i * 27648 + c * 9216 + x * 96 + y)%nat
     = b2 !!! (i * 27648 + c * 9216 + x * 96 + y)%nat) →
  b1 = b2.
Proof.
  intros H1 H2 Hag. apply list_eq. intros k.
  destruct (decide (k < count * 27648)%nat) as [Hk|Hk].
  - destruct (image_offset_decompose count k Hk)
      as (i & y & x & c & Hi & Hy & Hx & Hc & ->).
    rewrite <- H1 in Hk.
    destruct (lookup_lt_is_Some_2 _ _ Hk) as [v1 Hv1].
    rewrite H1, <- H2 in Hk.
    destruct (lookup_lt_is_Some_2 _ _ Hk) as [v2 Hv2].
    rewrite Hv1, Hv2. f_equal.
    rewrite <- (list_lookup_total_correct _ _ _ Hv1).
    rewrite <- (list_lookup_total_correct _ _ _ Hv2). by apply Hag.
  - rewrite (proj2 (lookup_ge_None b1 k)) by lia.
    by rewrite (proj2 (lookup_ge_None b2 k)) by lia.
Qed.

(** ** A file of images

    The file [filename] of the world [w] holds [count] images. *)
Section image_batch.

Variables (w : world) (filename s : string) (count : nat).
Hypothesis Hfile : files w !! filename = Some s.
Hypothesis Hlength : String.length s = (count * 27648)%nat.

(** C1: for a byte string whose length is a positive multiple of 27648,
    [extract_images] returns a uint8 array of shape [count, 96, 96, 3]
    whose element [i, y, x, c] is the input byte at offset
    [i*27648 + c*9216 + x*96 + y]. *)
Theorem extract_images_spec :
  (0 < count)%nat →
  ∃ a w',
    extract_images filename IMAGE_SHAPE w = (Ok a, w') ∧
    dtype_of a = uint8 ∧
    shape a = [count; 96; 96; 3]%nat ∧
    Forall (λ v, 0 ≤ v < 256) (elements w' a) ∧
    ∀ i y x c, (i < count)%nat → (y < 96)%nat → (x < 96)%nat → (c < 3)%nat →
      ∃ b, bytes_of_string s !! (i * 27648 + c * 9216 + x * 96 + y)%nat = Some b ∧
           getitem w' a [i; y; x; c] = Some b.
Proof.
  intros _. eexists _, _.
  split; [apply (extract_images_run _ _ _ _ Hfile Hlength) |].
  split_and!; try done.
  - apply elements_range. unfold buffer. cbn [heap base].
    rewrite lookup_total_insert_eq. apply bytes_of_string_range.
  - intros i y x c Hi Hy Hx Hc.
    pose proof (image_offset_bound count i y x c Hi Hy Hx Hc) as Hlt.
    rewrite <- Hlength, <- length_bytes_of_string in Hlt.
    destruct (lookup_lt_is_Some_2 _ _ Hlt) as [b Hb].
    exists b. split; [done |].
    rewrite getitem_image by done. cbn [heap].
    rewrite lookup_total_insert_eq. f_equal.
    by apply list_lookup_total_correct.
Qed.

(** C6: [extract_images] loses no data. Undoing the transpose and the
    reshape gives back the byte string; the elements of the array are a
    permutation of the bytes; and two byte strings with the same image
    array are equal. *)
Theorem extract_images_roundtrip :
  (0 < count)%nat →
  ∃ a w',
    extract_images filename IMAGE_SHAPE w = (Ok a, w') ∧
    images_to_bytes a w' = (Ok s, w') ∧
    elements w' a ≡ₚ bytes_of_string s ∧
    ∀ w2 filename2 s2 count2 a2 w2',
      files w2 !! filename2 = Some s2 →
      String.length s2 = (count2 * 27648)%nat →
      extract_images filename2 IMAGE_SHAPE w2 = (Ok a2, w2') →
      shape a2 = shape a →
      (∀ idx, getitem w2' a2 idx = getitem w' a idx) →
      s2 = s.
Proof.
  intros _. eexists _, _.
  split; [apply (extract_images_run _ _ _ _ Hfile Hlength) |].
  set (l := fresh (dom (heap w))).
  set (w' := World _ _ _ _ _).
  assert (Hbuf : heap w' !!! l = bytes_of_string s).
  { unfold w'. cbn [heap]. apply lookup_total_insert_eq. }
  assert (Hblen : length (heap w' !!! l) = (count * 27648)%nat).
  { by rewrite Hbuf, length_bytes_of_string. }
  split_and!.
  - rewrite (images_to_bytes_run w' l count Hblen), Hbuf.
    by rewrite string_of_bytes_of_string.
  - rewrite <- Hbuf. by apply elements_images.
  - intros w2 filename2 s2 count2 a2 w2' Hf2 Hlen2 Hrun2 Hsh Hag.
    rewrite (extract_images_run _ _ _ _ Hf2 Hlen2) in Hrun2.
    injection Hrun2 as <- <-.
    assert (count2 = count) as -> by (by injection Hsh).
    rewrite <- (string_of_bytes_of_string s), <- (string_of_bytes_of_string s2).
    f_equal. apply (images_agree_bytes_eq count).
    + by rewrite length_bytes_of_string.
    + by rewrite length_bytes_of_string.
    + intros i y x c Hi Hy Hx Hc.
      specialize (Hag [i; y; x; c]).
      rewrite !getitem_image in Hag by done.
      rewrite Hbuf in Hag. cbn [heap] in Hag.
      rewrite lookup_total_insert_eq in Hag. by injection Hag.
Qed.

End image_batch.

(** ** Splits that are not known *)

(** C9: for a name other than 'train', 'test' and 'unlabeled', [get_data]
    returns [None] and leaves the world as it was: no file is opened, no
    line logged, no array made. *)
Theorem get_data_unknown_name (name : string) (max_num : Z) (w : world) :
  name ≠ "train" → name ≠ "test" → name ≠ "unlabeled" →
  get_data name max_num w = (Ok RNone, w).
Proof.
  intros H1 H2 H3. unfold get_data.
  by rewrite !decide_False by done.
Qed.

(** ** Fold selection: the assertion and the frame *)

Lemma alloc_subseteq (h : gmap loc (list Z)) (buf : list Z) :
  h ⊆ <[fresh (dom h) := buf]> h.
Proof.
  apply insert_subseteq, not_elem_of_dom, is_fresh.
Qed.

Lemma behaves_ret {A} (a : A) : behaves (mret a) [].
Proof. intros w r w' [= <- <-]. by rewrite app_nil_r. Qed.

Lemma behaves_raise {A} (e : exn) :
  (∀ msg, e ≠ AssertionError msg) → behaves (raise (A := A) e) [].
Proof.
  intros He w r w' [= <- <-]. rewrite app_nil_r. split_and!; try done.
  intros msg [= ->]. by eapply He.
Qed.

Lemma behaves_bind_quiet {A B} (m : M A) (f : A → M B) (evs : list event) :
  behaves m evs → (∀ a, behaves (f a) []) → behaves (m ≫= f) evs.
Proof.
  intros Hm Hf w r w'. rewrite run_bind.
  destruct (m w) as [[a|e] w1] eqn:Hmw; intros Hr.
  - destruct (Hm _ _ _ Hmw) as (Hfs & Hh & Ht & _).
    destruct (Hf a _ _ _ Hr) as (Hfs' & Hh' & Ht' & Hne).
    rewrite app_nil_r in Ht'. split_and!; try congruence.
    by transitivity (heap w1).
  - injection Hr as <- <-.
    destruct (Hm _ _ _ Hmw) as (Hfs & Hh & Ht & Hne).
    split_and!; try done. intros msg [= ->]. by apply (Hne msg).
Qed.

Lemma behaves_emit {A} (e : event) (k : M A) (evs : list event) :
  behaves k evs → behaves (emit e ;; k) (e :: evs).
Proof.
  intros Hk w r w' Hr. destruct (Hk _ _ _ Hr) as (Hfs & Hh & Ht & Hne).
  cbn [trace set_trace] in Ht. rewrite <- app_assoc in Ht. done.
Qed.

Lemma behaves_gfile_lines (path : string) : behaves (gfile_lines path) [FileOpen path].
Proof.
  intros w r w'. unfold gfile_lines, gfile_read, file_content. run_unfold.
  cbn [files set_trace]. destruct (files w !! path); intros [= <- <-]; done.
Qed.

Lemma behaves_np_array_astype_uint16 (rows : list (list string)) :
  behaves (np_array_astype_uint16 rows) [].
Proof.
  unfold np_array_astype_uint16. destruct (parse_table rows).
  - apply behaves_ret.
  - apply behaves_raise. by destruct (_ && _).
Qed.

Lemma behaves_np_row (t : list (list Z)) (i : Z) : behaves (np_row t i) [].
Proof.
  unfold np_row. destruct (norm_index _ _) as [k|]; [destruct (t !! k) |];
    (apply behaves_ret || by apply behaves_raise).
Qed.

Lemma behaves_np_take (a : ndarray) (idx : list Z) : behaves (np_take a idx) [].
Proof.
  unfold np_take. destruct (dims a) as [|[n s] ds]; [by apply behaves_raise |].
  destruct (mapM _ _) as [rows|]; [| by apply behaves_raise].
  intros w r w' [= <- <-]. cbn [files heap trace set_heap].
  rewrite app_nil_r. split_and!; try done. apply alloc_subseteq.
Qed.

Create HintDb behaves.
#[local] Hint Resolve behaves_ret behaves_bind_quiet behaves_gfile_lines
  behaves_np_array_astype_uint16 behaves_np_row behaves_np_take : behaves.

(** Whatever [pick_fold] does once the assertion has passed and a fold was
    asked for: the trace grew by the log line and the opening of the fold
    file, and nothing that existed was changed. *)
Lemma pick_fold_select_behaves (images labels : ndarray) (fold : Z) :
  0 ≤ fold ≤ 9 →
  behaves (pick_fold images labels fold)
    [LogInfo "Selecting fold %d" [ArgInt fold]; FileOpen fold_file].
Proof.
  intros Hfold. unfold pick_fold.
  rewrite bool_decide_true by lia. rewrite decide_True by lia.
  apply (behaves_emit _ _ [FileOpen fold_file]).
  auto 10 with behaves.
Qed.

Lemma pick_fold_all_run (images labels : ndarray) (w : world) :
  pick_fold images labels (-1) w
  = (Ok (images, labels), set_trace (trace w ++ [LogInfo "Using all folds." []]) w).
Proof. reflexivity. Qed.

Lemma pick_fold_assert_run (images labels : ndarray) (fold : Z) (w : world) :
  ¬ (-1 ≤ fold ≤ 9) →
  pick_fold images labels fold w
  = (Raise (AssertionError "Fold index needs to be in [0, 9] or -1 for all data."), w).
Proof.
  intros H. unfold pick_fold. by rewrite bool_decide_false by done.
Qed.

(** C3: [pick_fold] raises an assertion error exactly when [fold] is
    outside [-1, 9]; for a fold inside, the assertion passes and the run
    goes on into the selection branch (its log line and the opening of
    the fold file come next) or into the pass-through branch. *)
Theorem pick_fold_assertion (images labels : ndarray) (fold : Z) (w : world) :
  ((∃ msg, (pick_fold images labels fold w).1 = Raise (AssertionError msg))
   ↔ ¬ (-1 ≤ fold ≤ 9)) ∧
  (0 ≤ fold ≤ 9 →
     trace (pick_fold images labels fold w).2
     = trace w ++ [LogInfo "Selecting fold %d" [ArgInt fold]; FileOpen fold_file]) ∧
  (fold = -1 →
     pick_fold images labels fold w
     = (Ok (images, labels), set_trace (trace w ++ [LogInfo "Using all folds." []]) w)).
Proof.
  split_and!.
  - split.
    + intros [msg Hmsg] Hin.
      destruct (decide (fold = -1)) as [->|Hne].
      * by rewrite pick_fold_all_run in Hmsg.
      * destruct (pick_fold images labels fold w) as [r w'] eqn:Hrun.
        assert (0 ≤ fold ≤ 9) as Hfold by lia.
        destruct (pick_fold_select_behaves images labels fold Hfold _ _ _ Hrun)
          as (_ & _ & _ & Hno).
        by apply (Hno msg).
    + intros Hout. eexists. by rewrite pick_fold_assert_run.
  - intros Hfold.
    destruct (pick_fold images labels fold w) as [r w'] eqn:Hrun.
    by destruct (pick_fold_select_behaves images labels fold Hfold _ _ _ Hrun)
      as (_ & _ & Htr & _).
  - intros ->. apply pick_fold_all_run.
Qed.

(** C5: [pick_fold] never mutates its arguments: whatever the fold and the
    outcome, every buffer of the heap, those of [images] and [labels]
    among them, holds afterwards what it held before; called with
    [fold = -1] it returns the very pair it was given and the heap is the
    same. *)
Theorem pick_fold_no_mutation (images labels : ndarray) (fold : Z) (w : world) :
  (∀ l buf, heap w !! l = Some buf →
     heap (pick_fold images labels fold w).2 !! l = Some buf) ∧
  (pick_fold images labels (-1) w).1 = Ok (images, labels) ∧
  heap (pick_fold images labels (-1) w).2 = heap w.
Proof.
  split_and!; [| done | done].
  intros l buf Hl.
  destruct (decide (-1 ≤ fold ≤ 9)) as [Hin|Hout].
  - destruct (decide (fold = -1)) as [->|Hne]; [done |].
    destruct (pick_fold images labels fold w) as [r w'] eqn:Hrun.
    assert (0 ≤ fold ≤ 9) as Hfold by lia.
    destruct (pick_fold_select_behaves images labels fold Hfold _ _ _ Hrun)
      as (_ & Hsub & _ & _).
    by eapply lookup_weaken.
  - by rewrite pick_fold_assert_run.
Qed.

(** ** Taking rows of an array *)

Lemma length_offsets (ds : list (nat * nat)) (off : nat) :
  length (offsets off ds) = product ds.*1.
Proof.
  revert off. induction ds as [|[n s] ds IH]; intros off; [done |].
  cbn [offsets fmap list_fmap fst product foldr].
  generalize 0%nat at 1. intros j. revert j.
  induction n as [|n IHn]; intros j; [done |].
  cbn [seq fmap list_fmap concat]. rewrite length_app, IH, IHn.
  fold (product ds.*1). lia.
Qed.

Lemma lookup_concat_blocks {A} (P : nat) (bs : list (list A)) (k p : nat) (b : list A) :
  Forall (λ b, length b = P) bs → bs !! k = Some b → (p < P)%nat →
  concat bs !! (k * P + p)%nat = b !! p.
Proof.
  intros Hbs. revert k. induction Hbs as [|b0 bs Hb0 _ IH]; intros k Hk Hp.
  - by rewrite lookup_nil in Hk.
  - destruct k as [|k]; cbn [concat].
    + injection Hk as ->. apply lookup_app_l. lia.
    + rewrite lookup_app_r by lia. rewrite <- (IH k) by done. f_equal. lia.
Qed.

(** The element at a multi-index sits, in C order, at the position the same
    index has in a C-contiguous array of that shape. *)
Lemma offsets_lookup_index (ds : list (nat * nat)) (idx : list nat) (off o : nat) :
  index_offset ds idx = Some o →
  ∃ p, index_offset (c_dims ds.*1) idx = Some p ∧
       offsets off ds !! p = Some (off + o)%nat.
Proof.
  revert idx off o. induction ds as [|[n s] ds IH]; intros idx off o.
  - destruct idx; [| done]. intros [= <-]. exists 0%nat.
    split; [done |]. cbn. f_equal. lia.
  - destruct idx as [|i idx]; [done |]. cbn [index_offset].
    case_decide as Hi; [| done].
    destruct (index_offset ds idx) as [o'|] eqn:Ho'; [| done].
    intros [= <-].
    destruct (IH idx (off + i * s)%nat o' Ho') as (p' & Hp' & Hlk).
    exists (i * product ds.*1 + p')%nat. split.
    + cbn [fmap list_fmap fst c_dims index_offset].
      rewrite decide_True by done. by rewrite Hp'.
    + cbn [offsets].
      rewrite (lookup_concat_blocks (product ds.*1) _ i p'
                 (offsets (off + i * s) ds)).
      * rewrite Hlk. f_equal. lia.
      * apply Forall_fmap, Forall_forall. intros j _. apply length_offsets.
      * rewrite list_lookup_fmap, lookup_seq_lt by done. done.
      * apply lookup_lt_Some in Hlk. by rewrite length_offsets in Hlk.
Qed.

Lemma index_offset_c_dims_None (ds : list (nat * nat)) (idx : list nat) :
  index_offset ds idx = None → index_offset (c_dims ds.*1) idx = None.
Proof.
  revert idx. induction ds as [|[n s] ds IH]; intros idx.
  - by destruct idx.
  - destruct idx as [|i idx]; [done |].
    cbn [fmap list_fmap fst c_dims index_offset].
    case_decide; [| done].
    destruct (index_offset ds idx) eqn:Ho; [done |]. by rewrite (IH idx Ho).
Qed.

Lemma norm_index_in_range (n : nat) (v : Z) :
  0 ≤ v < Z.of_nat n → norm_index n v = Some (Z.to_nat v).
Proof. intros Hv. unfold norm_index. by rewrite decide_True. Qed.

Lemma mapM_norm_index (n : nat) (row : list Z) :
  Forall (λ v, 0 ≤ v < Z.of_nat n) row →
  mapM (norm_index n) row = Some (Z.to_nat <$> row).
Proof.
  intros Hrow. apply mapM_Some. apply Forall2_fmap_r, Forall_Forall2_diag.
  eapply Forall_impl; [done |]. intros v Hv. by apply norm_index_in_range.
Qed.

Lemma np_take_run (w : world) (a : ndarray) (idx : list Z) (n s : nat)
    (ds : list (nat * nat)) :
  dims a = (n, s) :: ds →
  Forall (λ v, 0 ≤ v < Z.of_nat n) idx →
  let l := fresh (dom (heap w)) in
  np_take a idx w =
    (Ok (NDArray l (dtype_of a) (c_dims (length idx :: ds.*1))),
     set_heap (<[l := taken (buffer w a) s ds (Z.to_nat <$> idx)]> (heap w)) w).
Proof.
  intros Hd Hidx l. unfold np_take. rewrite Hd, (mapM_norm_index _ _ Hidx).
  reflexivity.
Qed.

Lemma getitem_taken (w : world) (l : loc) (t : dtype) (buf : list Z) (n s : nat)
    (ds : list (nat * nat)) (rows : list nat) (k r : nat) (inner : list nat) :
  heap w !!! l = taken buf s ds rows →
  rows !! k = Some r →
  getitem w (NDArray l t (c_dims (length rows :: ds.*1))) (k :: inner)
  = o ← index_offset ds inner; Some (buf !!! (r * s + o)%nat).
Proof.
  intros Hbuf Hk. unfold getitem, buffer. cbn [base dims c_dims index_offset].
  rewrite decide_True by (by eapply lookup_lt_Some).
  destruct (index_offset ds inner) as [o|] eqn:Ho.
  - destruct (offsets_lookup_index ds inner (r * s) o Ho) as (p & Hp & Hlk).
    rewrite Hp. cbn [fmap option_fmap option_map mbind option_bind]. f_equal.
    apply list_lookup_total_correct. rewrite Hbuf. unfold taken.
    rewrite (lookup_concat_blocks (product ds.*1) _ k p
               ((λ o, buf !!! o) <$> offsets (r * s) ds)).
    + by rewrite list_lookup_fmap, Hlk.
    + apply Forall_fmap, Forall_forall. intros j _. cbn.
      by rewrite length_fmap, length_offsets.
    + by rewrite list_lookup_fmap, Hk.
    + apply lookup_lt_Some in Hlk. by rewrite length_offsets in Hlk.
  - by rewrite (index_offset_c_dims_None _ _ Ho).
Qed.

Lemma getitem_cons (w : world) (a : ndarray) (n s : nat) (ds : list (nat * nat))
    (r : nat) (inner : list nat) :
  dims a = (n, s) :: ds → (r < n)%nat →
  getitem w a (r :: inner)
  = o ← index_offset ds inner; Some (buffer w a !!! (r * s + o)%nat).
Proof.
  intros Hd Hr. unfold getitem. rewrite Hd. cbn [index_offset].
  rewrite decide_True by done. by destruct (index_offset ds inner).
Qed.

(** ** Fold selection: the table and the selected rows *)

Lemma np_row_run (t : list (list Z)) (i : Z) (row : list Z) (w : world) :
  0 ≤ i → t !! Z.to_nat i = Some row → np_row t i w = (Ok row, w).
Proof.
  intros Hi Hrow. unfold np_row.
  rewrite norm_index_in_range, Hrow; [done |].
  apply lookup_lt_Some in Hrow. lia.
Qed.

Lemma parse_table_row (rows : list (list string)) (t : list (list Z)) (f : nat)
    (row : list Z) :
  parse_table rows = Some t → t !! f = Some row →
  ∃ pieces, rows !! f = Some pieces ∧ mapM to_uint16 pieces = Some row.
Proof.
  unfold parse_table. destruct (rectangular rows); [| done].
  intros Ht Hrow. apply mapM_Some in Ht.
  destruct (Forall2_lookup_r _ _ _ _ _ Ht Hrow) as (pieces & Hp & Hm).
  by exists pieces.
Qed.

Lemma parse_table_uint16 (rows : list (list string)) (t : list (list Z)) :
  parse_table rows = Some t → Forall (Forall (λ v, 0 ≤ v < 65536)) t.
Proof.
  intros Ht. apply Forall_lookup. intros f row Hrow.
  destruct (parse_table_row _ _ _ _ Ht Hrow) as (pieces & _ & Hm).
  apply mapM_Some in Hm. apply Forall_lookup. intros k v Hv.
  destruct (Forall2_lookup_r _ _ _ _ _ Hm Hv) as (s & _ & Hs).
  unfold to_uint16 in Hs. destruct (py_int s) as [z|]; [| done].
  cbn [mbind option_bind] in Hs. destruct (in_long z); [| done].
  injection Hs as <-. apply Z.mod_pos_bound. lia.
Qed.

Lemma parse_table_rectangular (rows : list (list string)) (t : list (list Z))
    (i j : nat) (r1 r2 : list Z) :
  parse_table rows = Some t → t !! i = Some r1 → t !! j = Some r2 →
  length r1 = length r2.
Proof.
  intros Ht H1 H2.
  destruct (parse_table_row _ _ _ _ Ht H1) as (p1 & Hp1 & Hm1).
  destruct (parse_table_row _ _ _ _ Ht H2) as (p2 & Hp2 & Hm2).
  apply mapM_Some, Forall2_length in Hm1. apply mapM_Some, Forall2_length in Hm2.
  rewrite <- Hm1, <- Hm2. clear Hm1 Hm2 H1 H2.
  unfold parse_table in Ht. destruct (rectangular rows) eqn:Hrect; [| done].
  destruct rows as [|r0 rs]; [by rewrite lookup_nil in Hp1 |].
  cbn [rectangular] in Hrect.
  assert (Hall : ∀ k p, (r0 :: rs) !! k = Some p → length p = length r0).
  { intros [|k] p Hk; [by injection Hk as -> |]. cbn in Hk.
    rewrite forallb_forall in Hrect.
    eapply bool_decide_eq_true_1, Hrect.
    apply list_elem_of_In. by eapply list_elem_of_lookup_2. }
  by rewrite (Hall _ _ Hp1), (Hall _ _ Hp2).
Qed.

Lemma fold_pieces_lookup (s : string) (f : nat) (pieces : list string) :
  fold_pieces s !! f = Some pieces →
  ∃ line, file_lines s !! f = Some line ∧ pieces = but_last (split_on " " line).
Proof.
  unfold fold_pieces. rewrite list_lookup_fmap.
  destruct (file_lines s !! f) as [line|]; [| done].
  intros [= <-]. by exists line.
Qed.

Lemma split_on_app_sep (sep : ascii) (t r : string) :
  has_char sep t = false →
  split_on sep (t +:+ String sep r) = t :: split_on sep r.
Proof.
  induction t as [|c t IH]; cbn [has_char].
  - intros _. change (EmptyString +:+ String sep r) with (String sep r).
    cbn [split_on]. by rewrite decide_True.
  - intros [Hc Ht]%orb_false_elim. apply bool_decide_eq_false in Hc.
    change (String c t +:+ String sep r) with (String c (t +:+ String sep r)).
    cbn [split_on]. rewrite decide_False by done. by rewrite (IH Ht).
Qed.

Lemma split_on_dataset_line (toks : list string) :
  Forall (λ t, has_char " " t = false) toks →
  split_on " " (dataset_line toks) = toks ++ [String newline EmptyString].
Proof.
  induction 1 as [|t toks Ht _ IH]; [done |].
  change (dataset_line (t :: toks))
    with (t +:+ String " "%char (dataset_line toks)).
  rewrite split_on_app_sep by done. by rewrite IH.
Qed.

Lemma but_last_snoc {A} (l : list A) (x : A) : but_last (l ++ [x]) = l.
Proof.
  unfold but_last. rewrite length_app. cbn [length].
  replace (length l + 1 - 1)%nat with (length l) by lia.
  by rewrite take_app_length.
Qed.

(** *** A fold file that parses

    The fold file of the world [w] parses into [table]; [images] and
    [labels] are arrays with at least one axis, and [labels] is an array
    of [w] ([pick_fold] reads it after it has made the new images). *)
Section fold_selection.

Variables (w : world) (images labels : ndarray) (fold : Z) (s : string).
Variables (table : list (list Z)) (n si m sl : nat) (dsi dsl : list (nat * nat)).
Hypothesis Hfold : 0 ≤ fold ≤ 9.
Hypothesis Hlive : live w labels.
Hypothesis Hdims_images : dims images = (n, si) :: dsi.
Hypothesis Hdims_labels : dims labels = (m, sl) :: dsl.
Hypothesis Hfile : files w !! fold_file = Some s.
Hypothesis Htable : parse_table (fold_pieces s) = Some table.

Lemma pick_fold_run (row : list Z) :
  table !! Z.to_nat fold = Some row →
  Forall (λ v, 0 ≤ v < Z.of_nat n) row →
  Forall (λ v, 0 ≤ v < Z.of_nat m) row →
  let l1 := fresh (dom (heap w)) in
  let h1 := <[l1 := taken (buffer w images) si dsi (Z.to_nat <$> row)]> (heap w) in
  let l2 := fresh (dom h1) in
  pick_fold images labels fold w =
    (Ok (NDArray l1 (dtype_of images) (c_dims (length row :: dsi.*1)),
         NDArray l2 (dtype_of labels) (c_dims (length row :: dsl.*1))),
     World (files w)
       (<[l2 := taken (h1 !!! base labels) sl dsl (Z.to_nat <$> row)]> h1)
       (trace w ++ [LogInfo "Selecting fold %d" [ArgInt fold]; FileOpen fold_file])
       (entropy w) (seeded w)).
Proof.
  intros Hrow Hri Hrl l1 h1 l2. unfold pick_fold.
  rewrite bool_decide_true by lia. rewrite decide_True by lia.
  set (w1 := World (files w) (heap w)
    (trace w ++ [LogInfo "Selecting fold %d" [ArgInt fold]; FileOpen fold_file])
    (entropy w) (seeded w)).
  change (py_assert true _ ;; ?k) with k.
  rewrite (run_bind_ok _ _ w
    (set_trace (trace w ++ [LogInfo "Selecting fold %d" [ArgInt fold]]) w) tt)
    by done.
  rewrite (run_bind_ok _ _ _ w1 (file_lines s)).
  2:{ unfold gfile_lines, gfile_read, file_content. run_unfold.
      cbn [files set_trace trace]. rewrite Hfile. unfold w1, set_trace.
      cbn [files heap trace entropy seeded]. by rewrite <- app_assoc. }
  fold (fold_pieces s). unfold np_array_astype_uint16. rewrite Htable.
  rewrite (run_bind_ok _ _ w1 w1 table) by done.
  rewrite (run_bind_ok _ _ w1 w1 row) by (apply np_row_run; [lia | done]).
  erewrite run_bind_ok; [| by apply (np_take_run w1 images row n si dsi)].
  erewrite run_bind_ok; [| apply np_row_run; [lia | done]].
  erewrite run_bind_ok; [| by apply (np_take_run _ labels row m sl dsl)].
  reflexivity.
Qed.

(** A successful selection: what [pick_fold] returns when the fold file
    parses and the indices of the row are inside both arrays. *)
Lemma pick_fold_selected (row : list Z) :
  table !! Z.to_nat fold = Some row →
  Forall (λ v, v < Z.of_nat n) row →
  Forall (λ v, v < Z.of_nat m) row →
  ∃ images' labels' w',
    pick_fold images labels fold w = (Ok (images', labels'), w') ∧
    shape images' = length row :: dsi.*1 ∧
    shape labels' = length row :: dsl.*1 ∧
    ∀ k v, row !! k = Some v →
      ∀ inner,
        getitem w' images' (k :: inner) = getitem w images (Z.to_nat v :: inner) ∧
        getitem w' labels' (k :: inner) = getitem w labels (Z.to_nat v :: inner).
Proof.
  intros Hrow Hltn Hltm.
  assert (Hnonneg : Forall (λ v, 0 ≤ v) row).
  { pose proof (parse_table_uint16 _ _ Htable) as Hu.
    pose proof (Forall_lookup_1 _ _ _ _ Hu Hrow) as Hu'.
    eapply Forall_impl; [exact Hu' |]. intros v Hv. simpl in Hv. lia. }
  assert (Hrn : Forall (λ v, 0 ≤ v < Z.of_nat n) row).
  { apply Forall_and. by split. }
  assert (Hrm : Forall (λ v, 0 ≤ v < Z.of_nat m) row).
  { apply Forall_and. by split. }
  eexists _, _, _. split.
  { by apply pick_fold_run. }
  set (l1 := fresh (dom (heap w))).
  set (h1 := <[l1 := taken (buffer w images) si dsi (Z.to_nat <$> row)]> (heap w)).
  set (l2 := fresh (dom h1)).
  assert (Hl12 : l1 ≠ l2).
  { intros Heq. apply (is_fresh (dom h1)). fold l2. rewrite <- Heq.
    unfold h1. rewrite dom_insert_L. apply elem_of_union_l.
    by apply elem_of_singleton. }
  assert (Hlab : h1 !!! base labels = buffer w labels).
  { unfold h1, buffer. apply lookup_total_insert_ne. intros Heq.
    apply (is_fresh (dom (heap w))). fold l1. by rewrite Heq. }
  split_and!.
  - unfold shape. cbn [dims c_dims fmap list_fmap fst]. f_equal.
    clear. induction (dsi.*1) as [|x l IH]; [done |]. cbn. by f_equal.
  - unfold shape. cbn [dims c_dims fmap list_fmap fst]. f_equal.
    clear. induction (dsl.*1) as [|x l IH]; [done |]. cbn. by f_equal.
  - intros k v Hv inner.
    pose proof (Forall_lookup_1 _ _ _ _ Hrn Hv) as Hvn.
    pose proof (Forall_lookup_1 _ _ _ _ Hrm Hv) as Hvm. simpl in Hvn, Hvm.
    assert (Hk : (Z.to_nat <$> row) !! k = Some (Z.to_nat v))
      by (by rewrite list_lookup_fmap, Hv).
    rewrite <- (length_fmap Z.to_nat row). split.
    + rewrite (getitem_taken _ l1 _ (buffer w images) n si dsi _ k (Z.to_nat v));
        [| | done].
      * symmetry. apply (getitem_cons w images n si dsi); [done | lia].
      * cbn [heap]. rewrite lookup_total_insert_ne by done.
        apply lookup_total_insert_eq.
    + rewrite (getitem_taken _ l2 _ (buffer w labels) m sl dsl _ k (Z.to_nat v));
        [| | done].
      * symmetry. apply (getitem_cons w labels m sl dsl); [done | lia].
      * cbn [heap]. rewrite lookup_total_insert_eq. by rewrite Hlab.
Qed.


End fold_selection.



Example tiny_fold_complete :
  let text := "0 1 2 " +:+ String newline EmptyString in
  ∃ a b w', pick_fold tiny_images tiny_labels 0 (tiny_world text) = (Ok (a, b), w')
    ∧ elements w' a = [10; 20; 30] ∧ elements w' b = [0; 1; 2].
Proof. eexists _, _, _. split; [vm_compute; reflexivity |]. by vm_compute. Qed.

Example tiny_fold_short :
  let text := "0 1 2" +:+ String newline EmptyString in
  line_indices text = Some [0; 1; 2] ∧
  ∃ a b w', pick_fold tiny_images tiny_labels 0 (tiny_world text) = (Ok (a, b), w')
    ∧ elements w' a = [10; 20] ∧ elements w' b = [0; 1].
Proof.
  split; [by vm_compute |].
  eexists _, _, _. split; [vm_compute; reflexivity |]. by vm_compute.
Qed.

(** ** The augmentation parameters *)

Lemma augmentation_params_items :
  augmentation_params = list_to_map (reverse augmentation_items).
Proof. reflexivity. Qed.

Lemma augmentation_keys_NoDup : NoDup (reverse augmentation_items).*1.
Proof. apply (bool_decide_unpack _). by vm_compute. Qed.

(** C7: [augmentation_params] has exactly the seven keys, bound to 0.2,
    1.3, 0.5, 1.2, 0.1, 0.5 and 10, and every value lies in the valid range
    of its knob. *)
Theorem augmentation_params_spec :
  (∀ k v, augmentation_params !! k = Some v ↔ (k, v) ∈ augmentation_items) ∧
  size augmentation_params = 7%nat ∧
  knobs_in_range augmentation_params.
Proof.
  split_and!.
  - intros k v. rewrite augmentation_params_items.
    rewrite <- (elem_of_list_to_map _ _ _ augmentation_keys_NoDup).
    by rewrite elem_of_reverse.
  - rewrite augmentation_params_items.
    rewrite (map_size_list_to_map _ augmentation_keys_NoDup). done.
  - unfold knobs_in_range. split_and!.
    + by exists (PyFloat 0.2).
    + by exists (PyFloat 1.3).
    + by exists (PyFloat 0.5), (PyFloat 1.2).
    + by exists (PyFloat 0.1).
    + by exists (PyFloat 0.5).
    + by exists 10.
Qed.

(** ** Sampling without replacement *)

Lemma length_swap (x : list nat) (i j : nat) : length (swap x i j) = length x.
Proof. unfold swap. by rewrite !length_insert. Qed.

Lemma swap_Permutation (x : list nat) (i j : nat) :
  (i < length x)%nat → (j < length x)%nat → swap x i j ≡ₚ x.
Proof.
  intros Hi Hj. apply Permutation_inj. split; [apply length_swap |].
  exists (λ k, if decide (k = i) then j else if decide (k = j) then i else k).
  split.
  - intros a b. repeat case_decide; congruence.
  - intros k. unfold swap.
    destruct (decide (k = j)) as [->|Hkj].
    + rewrite list_lookup_insert_eq by (by rewrite length_insert).
      destruct (decide (j = i)) as [->|];
        symmetry; by apply list_lookup_lookup_total_lt.
    + rewrite list_lookup_insert_ne by done.
      destruct (decide (k = i)) as [->|Hki].
      * rewrite list_lookup_insert_eq by done.
        symmetry. by apply list_lookup_lookup_total_lt.
      * by rewrite list_lookup_insert_ne.
Qed.

Lemma shuffle_from_Permutation (i : nat) (x : list nat) (st : RandomState) :
  (i < length x)%nat → (shuffle_from i x st).1 ≡ₚ x.
Proof.
  revert x st. induction i as [|i IH]; intros x st Hi; [done |].
  cbn [shuffle_from rk_interval].
  pose proof (Nat.mod_upper_bound (stream st (used st)) (S (S i)) ltac:(done)).
  rewrite IH by (rewrite length_swap; lia).
  apply swap_Permutation; lia.
Qed.

Lemma permutation_Permutation (n : nat) (st : RandomState) :
  (permutation n st).1 ≡ₚ seq 0 n.
Proof.
  unfold permutation. destruct n as [|n]; [done |].
  apply shuffle_from_Permutation. rewrite length_seq. lia.
Qed.

(** What [rng.choice(n, size, False)] returns for [0 <= size <= n], [0 < n]:
    [size] pairwise different indices below [n]. *)
Lemma rng_choice_run (st : RandomState) (n size : Z) (w : world) :
  0 < n → 0 ≤ size ≤ n →
  ∃ idx st',
    rng_choice st n size w = (Ok (Z.of_nat <$> idx, st'), w) ∧
    NoDup idx ∧ length idx = Z.to_nat size ∧
    Forall (λ i, (i < Z.to_nat n)%nat) idx.
Proof.
  intros Hn Hsize. unfold rng_choice.
  rewrite !decide_False by lia.
  pose proof (permutation_Permutation (Z.to_nat n) st) as Hperm.
  destruct (permutation (Z.to_nat n) st) as [p st'] eqn:Hp. cbn [fst] in Hperm.
  exists (take (Z.to_nat size) p), st'. split_and!.
  - done.
  - eapply sublist_NoDup; [| apply sublist_take].
    rewrite Hperm. apply NoDup_seq.
  - rewrite length_take. apply Permutation_length in Hperm.
    rewrite length_seq in Hperm. lia.
  - apply Forall_take. rewrite Hperm. apply Forall_forall.
    intros i Hi%elem_of_seq. lia.
Qed.

Lemma c_dims_shape (sh : list nat) : (c_dims sh).*1 = sh.
Proof. induction sh as [|n sh IH]; [done |]. cbn. by f_equal. Qed.

(** ** The unlabeled split *)


(** ** The theorems at concrete inputs *)

Lemma extract_labels_spec_witness :
  ∃ a w',
    extract_labels "train_y.bin" (fresh_world {[ "train_y.bin" := raw_labels ]})
    = (Ok a, w') ∧
    elements w' a = [0; 9; 255].
Proof.
  destruct (extract_labels_spec (fresh_world {[ "train_y.bin" := raw_labels ]})
              "train_y.bin" raw_labels)
    as (a & w' & Hrun & _ & _ & Hel & _).
  - vm_compute. reflexivity.
  - exists a, w'. split; [exact Hrun |]. rewrite Hel. vm_compute. reflexivity.
Defined.

Lemma length_string_of_list_ascii (l : list ascii) :
  String.length (string_of_list_ascii l) = length l.
Proof. induction l as [|c l IH]; [done |]. cbn. by rewrite IH. Qed.

Lemma length_raw_images (count : nat) :
  String.length (raw_images count) = (count * 27648)%nat.
Proof.
  unfold raw_images. rewrite length_string_of_list_ascii.
  change 27648%nat with (108 * 256)%nat. rewrite Nat.mul_assoc.
  induction (count * 108)%nat as [|n IH]; [done |].
  cbn [replicate concat]. rewrite length_app, IH. done.
Qed.

Lemma extract_images_spec_witness :
  ∃ a w',
    extract_images "train_X.bin" IMAGE_SHAPE
      (fresh_world {[ "train_X.bin" := raw_images 1 ]}) = (Ok a, w') ∧
    shape a = [1; 96; 96; 3]%nat ∧
    getitem w' a [0; 5; 7; 2]%nat = Some 165.
Proof.
  destruct (extract_images_spec (fresh_world {[ "train_X.bin" := raw_images 1 ]})
              "train_X.bin" (raw_images 1) 1)
    as (a & w' & Hrun & _ & Hsh & _ & Hget).
  - apply lookup_singleton_eq.
  - apply length_raw_images.
  - lia.
  - exists a, w'. split; [exact Hrun |]. split; [exact Hsh |].
    destruct (Hget 0 5 7 2)%nat as (b & Hb & ->); [lia | lia | lia | lia |].
    rewrite <- Hb. vm_compute. reflexivity.
Defined.

Lemma extract_images_roundtrip_witness :
  ∃ a w',
    extract_images "test_X.bin" IMAGE_SHAPE
      (fresh_world {[ "test_X.bin" := raw_images 2 ]}) = (Ok a, w') ∧
    images_to_bytes a w' = (Ok (raw_images 2), w').
Proof.
  destruct (extract_images_roundtrip
              (fresh_world {[ "test_X.bin" := raw_images 2 ]})
              "test_X.bin" (raw_images 2) 2)
    as (a & w' & Hrun & Hback & _).
  - apply lookup_singleton_eq.
  - apply length_raw_images.
  - lia.
  - exists a, w'. split; [exact Hrun | exact Hback].
Defined.

Lemma get_data_unknown_name_witness :
  get_data "validation" 20000 (fresh_world ∅) = (Ok RNone, fresh_world ∅).
Proof. apply get_data_unknown_name; discriminate. Defined.




(** * Further properties *)

(** ** Images of any shape *)

Lemma resolve_shape_batch (count h wd c : nat) :
  (0 < h)%nat → (0 < wd)%nat → (0 < c)%nat →
  resolve_shape (count * (c * wd * h)) [-1; Z.of_nat c; Z.of_nat wd; Z.of_nat h]
  = Some [count; c; wd; h].
Proof.
  intros Hh Hw Hc. unfold resolve_shape.
  assert (Hknown : filter (λ d, 0 ≤ d) [-1; Z.of_nat c; Z.of_nat wd; Z.of_nat h]
                   = [Z.of_nat c; Z.of_nat wd; Z.of_nat h]).
  { rewrite filter_cons_False by lia. by rewrite !filter_cons_True by lia. }
  assert (Hneg : filter (λ d, d < 0) [-1; Z.of_nat c; Z.of_nat wd; Z.of_nat h]
                 = [-1]).
  { rewrite filter_cons_True by lia. by rewrite !filter_cons_False by lia. }
  rewrite Hknown, Hneg.
  cbn [length fmap list_fmap product foldr]. rewrite !Nat2Z.id.
  replace (c * (wd * (h * 1)))%nat with (c * wd * h)%nat by lia.
  assert (Hpos : (c * wd * h ≠ 0)%nat) by nia.
  rewrite Nat.Div0.mod_mul, Nat.div_mul by done.
  rewrite decide_False by (intros [?|?]; done).
  rewrite decide_True by lia. by rewrite !decide_False by lia.
Qed.

Lemma extract_images_run_batch (w : world) (filename s : string)
    (count h wd c : nat) :
  files w !! filename = Some s →
  (0 < h)%nat → (0 < wd)%nat → (0 < c)%nat →
  String.length s = (count * (c * wd * h))%nat →
  let l := fresh (dom (heap w)) in
  extract_images filename [Z.of_nat h; Z.of_nat wd; Z.of_nat c] w =
    (Ok (NDArray l uint8 (batch_dims count h wd c)),
     World (files w) (<[l := bytes_of_string s]> (heap w))
       (trace w ++ [LogInfo "Extracting %s" [ArgStr filename]; FileOpen filename])
       (entropy w) (seeded w)).
Proof.
  intros Hf Hh Hw Hc Hlen l. unfold extract_images, np_fromstring_uint8.
  run_unfold. cbn -[np_reshape np_transpose]. rewrite Hf.
  cbn -[np_reshape np_transpose].
  unfold np_reshape. unfold arr_size, shape. cbn [dims fmap list_fmap fst product foldr].
  rewrite Nat.mul_1_r, Hlen.
  change (reverse [Z.of_nat h; Z.of_nat wd; Z.of_nat c])
    with [Z.of_nat c; Z.of_nat wd; Z.of_nat h].
  rewrite resolve_shape_batch by done. rewrite decide_True by done.
  run_unfold. unfold np_transpose, ndim. cbn [dims c_dims length base dtype_of].
  rewrite decide_True by apply image_axes_perm.
  unfold set_heap, set_trace, raise, mret, M_ret.
  cbn [files heap trace entropy seeded fmap list_fmap lookup_total list_lookup_total
       product foldr].
  rewrite <- app_assoc. unfold batch_dims. do 3 f_equal.
  repeat (f_equal; try lia).
Qed.

Lemma mul_add_lt (a n r k : nat) : (a < n)%nat → (r < k)%nat → (a * k + r < n * k)%nat.
Proof. nia. Qed.

Lemma batch_offset_bound (count h wd c i y x ch : nat) :
  (i < count)%nat → (y < h)%nat → (x < wd)%nat → (ch < c)%nat →
  (i * (c * wd * h) + ch * (wd * h) + x * h + y < count * (c * wd * h))%nat.
Proof.
  intros Hi Hy Hx Hc.
  pose proof (mul_add_lt x wd y h Hx Hy) as H1.
  pose proof (mul_add_lt ch c (x * h + y) (wd * h) Hc H1) as H2.
  pose proof (mul_add_lt i count _ (c * (wd * h)) Hi H2) as H3.
  lia.
Qed.

(** X1: for every shape [[h, wd, c]] of positive extents and every file of
    [count * h * wd * c] bytes (the empty file included), [extract_images]
    returns an array of shape [[count, h, wd, c]] that is a view on the
    bytes of the file as they are, and its element [[i, y, x, ch]] is the
    byte at offset [i*(c*wd*h) + ch*(wd*h) + x*h + y]. *)
Theorem extract_images_any_shape (w : world) (filename s : string)
    (count h wd c : nat) :
  files w !! filename = Some s →
  (0 < h)%nat → (0 < wd)%nat → (0 < c)%nat →
  String.length s = (count * (c * wd * h))%nat →
  ∃ a w',
    extract_images filename [Z.of_nat h; Z.of_nat wd; Z.of_nat c] w = (Ok a, w') ∧
    dtype_of a = uint8 ∧
    shape a = [count; h; wd; c] ∧
    heap w' !! base a = Some (bytes_of_string s) ∧
    ∀ i y x ch, (i < count)%nat → (y < h)%nat → (x < wd)%nat → (ch < c)%nat →
      ∃ b, bytes_of_string s
             !! (i * (c * wd * h) + ch * (wd * h) + x * h + y)%nat = Some b ∧
           getitem w' a [i; y; x; ch] = Some b.
Proof.
  intros Hf Hh Hw Hc Hlen. eexists _, _.
  split; [by apply extract_images_run_batch |].
  split_and!; try done.
  - cbn [heap base]. apply lookup_insert_eq.
  - intros i y x ch Hi Hy Hx Hch.
    pose proof (batch_offset_bound count h wd c i y x ch Hi Hy Hx Hch) as Hlt.
    rewrite <- Hlen, <- length_bytes_of_string in Hlt.
    destruct (lookup_lt_is_Some_2 _ _ Hlt) as [b Hb].
    exists b. split; [done |].
    unfold getitem, buffer, batch_dims. cbn [dims base heap index_offset].
    rewrite !decide_True by done.
    cbn [fmap option_fmap option_map mbind option_bind].
    rewrite lookup_total_insert_eq. f_equal.
    rewrite <- (list_lookup_total_correct _ _ _ Hb). f_equal. lia.
Qed.

(** ** Files that are missing or cut short *)

Lemma resolve_shape_images_None (sz : nat) :
  (sz mod 27648 ≠ 0)%nat → resolve_shape sz [-1; 3; 96; 96] = None.
Proof.
  intros Hmod. unfold resolve_shape.
  replace (filter (λ d, 0 ≤ d) [-1; 3; 96; 96]) with [3; 96; 96] by done.
  replace (filter (λ d, d < 0) [-1; 3; 96; 96]) with [-1] by done.
  change (product (Z.to_nat <$> [3; 96; 96])) with 27648%nat.
  cbn [length]. by rewrite decide_True by (by right).
Qed.

Lemma extract_images_missing_run (w : world) (filename : string) (shape : list Z) :
  files w !! filename = None →
  extract_images filename shape w =
    (Raise (IOError filename),
     set_trace (trace w ++ [LogInfo "Extracting %s" [ArgStr filename];
                            FileOpen filename]) w).
Proof.
  intros Hf. unfold extract_images. run_unfold. cbn [files set_trace trace].
  rewrite Hf. unfold set_trace. cbn [files heap trace entropy seeded].
  by rewrite <- app_assoc.
Qed.

Lemma extract_labels_missing_run (w : world) (filename : string) :
  files w !! filename = None →
  extract_labels filename w =
    (Raise (IOError filename),
     set_trace (trace w ++ [LogInfo "Extracting %s" [ArgStr filename];
                            FileOpen filename]) w).
Proof.
  intros Hf. unfold extract_labels. run_unfold. cbn [files set_trace trace].
  rewrite Hf. unfold set_trace. cbn [files heap trace entropy seeded].
  by rewrite <- app_assoc.
Qed.

Lemma extract_images_short_run (w : world) (filename s : string) :
  files w !! filename = Some s →
  (String.length s mod 27648 ≠ 0)%nat →
  extract_images filename IMAGE_SHAPE w =
    (Raise ValueError,
     World (files w) (<[fresh (dom (heap w)) := bytes_of_string s]> (heap w))
       (trace w ++ [LogInfo "Extracting %s" [ArgStr filename]; FileOpen filename])
       (entropy w) (seeded w)).
Proof.
  intros Hf Hmod. unfold extract_images, np_fromstring_uint8.
  run_unfold. cbn -[np_reshape np_transpose]. rewrite Hf.
  cbn -[np_reshape np_transpose].
  unfold np_reshape. unfold arr_size, shape. cbn [dims fmap list_fmap fst product foldr].
  rewrite Nat.mul_1_r. change (reverse IMAGE_SHAPE) with [3; 96; 96].
  rewrite resolve_shape_images_None by done.
  unfold raise, set_heap, set_trace. cbn [files heap trace entropy seeded].
  by rewrite <- app_assoc.
Qed.


Lemma length_resolve_shape (sz : nat) (newshape : list Z) (sh : list nat) :
  resolve_shape sz newshape = Some sh → length sh = length newshape.
Proof.
  unfold resolve_shape.
  destruct (length (filter _ newshape)) as [|[|k]]; [| | done].
  - case_decide; [| done]. intros [= <-]. by rewrite length_fmap.
  - case_decide; [done |]. intros [= <-]. by rewrite length_fmap.
Qed.

Lemma length_c_dims (sh : list nat) : length (c_dims sh) = length sh.
Proof. induction sh as [|n sh IH]; [done |]. cbn. by rewrite IH. Qed.


(** ** Labels, back and forth *)

Lemma succ_pred_byte (b : Z) : 0 ≤ b < 256 → ((b - 1) mod 256 + 1) mod 256 = b.
Proof.
  intros Hb. destruct (decide (b = 0)) as [->|Hne]; [done |].
  rewrite (Z.mod_small (b - 1)) by lia. rewrite Z.mod_small by lia. lia.
Qed.

Lemma elements_1d (w : world) (l : loc) (t : dtype) (buf : list Z) :
  heap w !! l = Some buf →
  elements w (NDArray l t [(length buf, 1%nat)]) = buf.
Proof.
  intros Hl. unfold elements, buffer. cbn [base dims].
  rewrite (lookup_total_correct _ _ _ Hl).
  change [(length buf, 1%nat)] with (c_dims [length buf]).
  rewrite offsets_c_dims. cbn [product foldr]. rewrite Nat.mul_1_r.
  apply lookup_total_seq.
Qed.

(** X4: the labels lose nothing by the decrement: adding one (modulo 256)
    to the entries of the array [extract_labels] returns gives back the
    bytes of the file. *)
Theorem extract_labels_roundtrip (w : world) (filename s : string) :
  files w !! filename = Some s →
  ∃ a w',
    extract_labels filename w = (Ok a, w') ∧
    string_of_bytes ((λ v, (v + 1) mod 256) <$> elements w' a) = s.
Proof.
  intros Hf. eexists _, _. split; [apply (extract_labels_run _ _ _ Hf) |].
  set (buf := (λ b, (b - 1) mod 256) <$> bytes_of_string s).
  assert (Hlen : String.length s = length buf).
  { unfold buf. by rewrite length_fmap, length_bytes_of_string. }
  rewrite Hlen. rewrite (elements_1d _ _ _ buf) by apply lookup_insert_eq.
  unfold buf. rewrite <- list_fmap_compose.
  rewrite <- (string_of_bytes_of_string s) at 2. f_equal.
  rewrite <- (list_fmap_id (bytes_of_string s)) at 2.
  apply Forall_fmap_ext_1. eapply Forall_impl; [apply bytes_of_string_range |].
  intros b Hb. by apply succ_pred_byte.
Qed.

(** ** The labeled splits *)

(** What [get_data] leaves in the world for 'train' and 'test': four
    events and two new buffers, the bytes of the image file as they are
    and the decremented bytes of the label file. *)
Lemma get_data_labeled_run (w : world) (name : string) (max_num : Z)
    (sx sy : string) (count : nat) :
  name = "train" ∨ name = "test" →
  files w !! (DATADIR +:+ name +:+ "_X.bin") = Some sx →
  String.length sx = (count * 27648)%nat →
  files w !! (DATADIR +:+ name +:+ "_y.bin") = Some sy →
  let l1 := fresh (dom (heap w)) in
  let h1 := <[l1 := bytes_of_string sx]> (heap w) in
  let l2 := fresh (dom h1) in
  get_data name max_num w =
    (Ok (RTuple (NDArray l1 uint8 (image_dims count))
                (Some (NDArray l2 uint8 [(String.length sy, 1%nat)]))),
     World (files w)
       (<[l2 := (λ b, (b - 1) mod 256) <$> bytes_of_string sy]> h1)
       (trace w ++
          [LogInfo "Extracting %s" [ArgStr (DATADIR +:+ name +:+ "_X.bin")];
           FileOpen (DATADIR +:+ name +:+ "_X.bin");
           LogInfo "Extracting %s" [ArgStr (DATADIR +:+ name +:+ "_y.bin")];
           FileOpen (DATADIR +:+ name +:+ "_y.bin")])
       (entropy w) (seeded w)).
Proof.
  intros Hname Hfx Hlen Hfy l1 h1 l2.
  set (w1 := World (files w) h1
    (trace w ++ [LogInfo "Extracting %s" [ArgStr (DATADIR +:+ name +:+ "_X.bin")];
                 FileOpen (DATADIR +:+ name +:+ "_X.bin")])
    (entropy w) (seeded w)).
  assert (Himg : extract_images (DATADIR +:+ name +:+ "_X.bin") IMAGE_SHAPE w
                 = (Ok (NDArray l1 uint8 (image_dims count)), w1))
    by (by apply extract_images_run).
  pose proof (extract_labels_run w1 (DATADIR +:+ name +:+ "_y.bin") sy Hfy) as Hlbl.
  cbv zeta in Hlbl. cbn [files heap trace entropy seeded w1] in Hlbl.
  rewrite <- app_assoc in Hlbl. cbn [app] in Hlbl.
  unfold get_data. destruct Hname as [-> | ->].
  - rewrite decide_True by done.
    rewrite (run_bind_ok _ _ w w1 _ Himg).
    by rewrite (run_bind_ok _ _ w1 _ _ Hlbl).
  - rewrite decide_False by done. rewrite decide_True by done.
    rewrite (run_bind_ok _ _ w w1 _ Himg).
    by rewrite (run_bind_ok _ _ w1 _ _ Hlbl).
Qed.

Lemma run_bind_raise {A B} (m : M A) (f : A → M B) (w w' : world) (e : exn) :
  m w = (Raise e, w') → (m ≫= f) w = (Raise e, w').
Proof. intros H. rewrite run_bind, H. reflexivity. Qed.

Lemma fresh_insert_ne (h : gmap loc (list Z)) (buf : list Z) :
  fresh (dom h) ≠ fresh (dom (<[fresh (dom h) := buf]> h)).
Proof.
  intros Heq. apply (is_fresh (dom (<[fresh (dom h) := buf]> h))).
  rewrite <- Heq, dom_insert_L. apply elem_of_union_l. by apply elem_of_singleton.
Qed.

(** X5: for 'train' and 'test', [get_data] returns the images of the image
    file and the labels of the label file as two arrays with buffers of
    their own: after the labels were decremented in place, every image
    entry still is the byte of the image file it was read from. The number
    of labels is the length of the label file, whatever the number of
    images; [max_num] plays no part. *)
Theorem get_data_labeled (w : world) (name : string) (max_num : Z)
    (sx sy : string) (count : nat) :
  name = "train" ∨ name = "test" →
  files w !! (DATADIR +:+ name +:+ "_X.bin") = Some sx →
  String.length sx = (count * 27648)%nat →
  files w !! (DATADIR +:+ name +:+ "_y.bin") = Some sy →
  ∃ images labels w',
    get_data name max_num w = (Ok (RTuple images (Some labels)), w') ∧
    shape images = [count; 96; 96; 3]%nat ∧
    shape labels = [String.length sy] ∧
    base images ≠ base labels ∧
    elements w' labels = (λ b, (b - 1) mod 256) <$> bytes_of_string sy ∧
    ∀ i y x c, (i < count)%nat → (y < 96)%nat → (x < 96)%nat → (c < 3)%nat →
      ∃ b, bytes_of_string sx !! (i * 27648 + c * 9216 + x * 96 + y)%nat = Some b ∧
           getitem w' images [i; y; x; c] = Some b.
Proof.
  intros Hname Hfx Hlen Hfy. eexists _, _, _.
  split; [by apply (get_data_labeled_run w name max_num sx sy count) |].
  set (l1 := fresh (dom (heap w))).
  set (h1 := <[l1 := bytes_of_string sx]> (heap w)).
  set (l2 := fresh (dom h1)).
  assert (Hne : l1 ≠ l2) by apply fresh_insert_ne.
  split_and!; try done.
  - set (buf := (λ b, (b - 1) mod 256) <$> bytes_of_string sy).
    assert (Hl : String.length sy = length buf).
    { unfold buf. by rewrite length_fmap, length_bytes_of_string. }
    rewrite Hl. apply elements_1d. apply lookup_insert_eq.
  - intros i y x c Hi Hy Hx Hc.
    pose proof (image_offset_bound count i y x c Hi Hy Hx Hc) as Hlt.
    rewrite <- Hlen, <- length_bytes_of_string in Hlt.
    destruct (lookup_lt_is_Some_2 _ _ Hlt) as [b Hb].
    exists b. split; [done |].
    rewrite getitem_image by done. cbn [heap].
    rewrite lookup_total_insert_ne by done. unfold h1.
    rewrite lookup_total_insert_eq. f_equal.
    by apply list_lookup_total_correct.
Qed.

(** X6: a labeled split whose image file is missing: [get_data] raises an
    [IOError] naming the image file, and the world differs only by the
    log line and the opening of that file (the label file is not opened,
    no array is made). With the image file in place and the label file
    missing, the [IOError] names the label file. *)
Theorem get_data_labeled_missing (w : world) (name : string) (max_num : Z) :
  name = "train" ∨ name = "test" →
  (files w !! (DATADIR +:+ name +:+ "_X.bin") = None →
     get_data name max_num w =
       (Raise (IOError (DATADIR +:+ name +:+ "_X.bin")),
        set_trace (trace w ++
          [LogInfo "Extracting %s" [ArgStr (DATADIR +:+ name +:+ "_X.bin")];
           FileOpen (DATADIR +:+ name +:+ "_X.bin")]) w)) ∧
  (∀ sx count,
     files w !! (DATADIR +:+ name +:+ "_X.bin") = Some sx →
     String.length sx = (count * 27648)%nat →
     files w !! (DATADIR +:+ name +:+ "_y.bin") = None →
     (get_data name max_num w).1 = Raise (IOError (DATADIR +:+ name +:+ "_y.bin"))).
Proof.
  intros Hname. split.
  - intros Hfx.
    pose proof (extract_images_missing_run w _ IMAGE_SHAPE Hfx) as Himg.
    unfold get_data. destruct Hname as [-> | ->].
    + rewrite decide_True by done. by rewrite (run_bind_raise _ _ w _ _ Himg).
    + rewrite decide_False by done. rewrite decide_True by done.
      by rewrite (run_bind_raise _ _ w _ _ Himg).
  - intros sx count Hfx Hlen Hfy.
    pose proof (extract_images_run w _ sx count Hfx Hlen) as Himg.
    cbv zeta in Himg.
    set (w1 := World _ _ _ _ _) in Himg.
    assert (Hfy1 : files w1 !! (DATADIR +:+ name +:+ "_y.bin") = None) by done.
    pose proof (extract_labels_missing_run w1 _ Hfy1) as Hlbl.
    unfold get_data. destruct Hname as [-> | ->].
    + rewrite decide_True by done.
      rewrite (run_bind_ok _ _ w w1 _ Himg).
      by rewrite (run_bind_raise _ _ w1 _ _ Hlbl).
    + rewrite decide_False by done. rewrite decide_True by done.
      rewrite (run_bind_ok _ _ w w1 _ Himg).
      by rewrite (run_bind_raise _ _ w1 _ _ Hlbl).
Qed.

(** ** When [get_data] returns nothing *)

Lemma bind_not_none {A} (m : M A) (f : A → M pyret) (w w' : world) :
  (∀ a w1, f a w1 ≠ (Ok RNone, w')) → (m ≫= f) w ≠ (Ok RNone, w').
Proof.
  intros Hf. rewrite run_bind. destruct (m w) as [[a|e] w1]; [apply Hf | done].
Qed.

(** X7: [get_data] returns [None] for the unknown names only: for 'train',
    'test' and 'unlabeled' the outcome is a tuple or an exception, whatever
    the files hold. *)
Theorem get_data_none_iff (name : string) (max_num : Z) (w : world) :
  (∃ w', get_data name max_num w = (Ok RNone, w'))
  ↔ name ≠ "train" ∧ name ≠ "test" ∧ name ≠ "unlabeled".
Proof.
  split.
  - intros [w' Hrun]. unfold get_data in Hrun.
    destruct (decide (name = "train")) as [->|H1].
    { exfalso. revert Hrun. apply bind_not_none. intros images w1.
      apply bind_not_none. by intros labels w2. }
    destruct (decide (name = "test")) as [->|H2].
    { exfalso. revert Hrun. apply bind_not_none. intros images w1.
      apply bind_not_none. by intros labels w2. }
    destruct (decide (name = "unlabeled")) as [->|H3]; [| done].
    exfalso. revert Hrun. apply bind_not_none. intros res w1.
    apply bind_not_none. intros num_images w2.
    case_decide; [| done].
    apply bind_not_none. intros rng w3. apply bind_not_none. intros n w4.
    apply bind_not_none. intros [idx st] w5.
    apply bind_not_none. by intros sample w6.
  - intros (H1 & H2 & H3). exists w. unfold get_data.
    by rewrite !decide_False by done.
Qed.

(** ** Fold selection: how it fails and when it succeeds *)

Lemma mapM_norm_index_None (n : nat) (idx : list Z) :
  Forall (λ v, 0 ≤ v) idx →
  ¬ Forall (λ v, v < Z.of_nat n) idx →
  mapM (norm_index n) idx = None.
Proof.
  intros Hnn Hbad. destruct (mapM (norm_index n) idx) as [rows|] eqn:Hm; [| done].
  exfalso. apply Hbad. apply mapM_Some in Hm.
  apply Forall_lookup. intros k v Hv.
  destruct (Forall2_lookup_l _ _ _ _ _ Hm Hv) as (r & _ & Hr).
  pose proof (Forall_lookup_1 _ _ _ _ Hnn Hv) as H0. simpl in H0.
  unfold norm_index in Hr. repeat case_decide; try done; lia.
Qed.

Lemma np_take_out_of_range (w : world) (a : ndarray) (idx : list Z) (n s : nat)
    (ds : list (nat * nat)) :
  dims a = (n, s) :: ds →
  Forall (λ v, 0 ≤ v) idx →
  ¬ Forall (λ v, v < Z.of_nat n) idx →
  np_take a idx w = (Raise IndexError, w).
Proof.
  intros Hd Hnn Hbad. unfold np_take.
  by rewrite Hd, (mapM_norm_index_None _ _ Hnn Hbad).
Qed.

Lemma np_take_scalar (w : world) (a : ndarray) (idx : list Z) :
  dims a = [] → np_take a idx w = (Raise IndexError, w).
Proof. intros Hd. unfold np_take. by rewrite Hd. Qed.

(** The run of [pick_fold] up to the row of the fold: the file is read,
    the table made, the row taken; what remains are the two selections. *)
Lemma pick_fold_row_run (w : world) (images labels : ndarray) (fold : Z)
    (s : string) (table : list (list Z)) (row : list Z) :
  0 ≤ fold ≤ 9 →
  files w !! fold_file = Some s →
  parse_table (fold_pieces s) = Some table →
  table !! Z.to_nat fold = Some row →
  pick_fold images labels fold w =
    (images' ← np_take images row;
     labels' ← np_take labels row;
     mret (images', labels'))
      (set_trace (trace w ++ [LogInfo "Selecting fold %d" [ArgInt fold];
                              FileOpen fold_file]) w).
Proof.
  intros Hfold Hf Ht Hrow. unfold pick_fold.
  rewrite bool_decide_true by lia. rewrite decide_True by lia.
  set (w1 := set_trace _ w).
  change (py_assert true _ ;; ?k) with k.
  rewrite (run_bind_ok _ _ w
    (set_trace (trace w ++ [LogInfo "Selecting fold %d" [ArgInt fold]]) w) tt)
    by done.
  rewrite (run_bind_ok _ _ _ w1 (file_lines s)).
  2:{ unfold gfile_lines, gfile_read, file_content. run_unfold.
      cbn [files set_trace trace]. rewrite Hf. unfold w1, set_trace.
      cbn [files heap trace entropy seeded]. by rewrite <- app_assoc. }
  fold (fold_pieces s). unfold np_array_astype_uint16. rewrite Ht.
  rewrite (run_bind_ok _ _ w1 w1 table) by done.
  rewrite (run_bind_ok _ _ w1 w1 row) by (apply np_row_run; [lia | done]).
  rewrite run_bind, (run_bind (np_take images row)).
  destruct (np_take images row w1) as [[a|e] w2]; [| done].
  by rewrite (run_bind_ok _ _ w2 w2 row) by (apply np_row_run; [lia | done]).
Qed.

Lemma np_row_out_of_range (t : list (list Z)) (i : Z) (w : world) :
  0 ≤ i → t !! Z.to_nat i = None → np_row t i w = (Raise IndexError, w).
Proof.
  intros Hi Hrow. unfold np_row, norm_index.
  case_decide; [by rewrite Hrow |]. case_decide; [lia | done].
Qed.

Lemma pick_fold_early_run (w : world) (images labels : ndarray) (fold : Z) :
  0 ≤ fold ≤ 9 →
  pick_fold images labels fold w =
    let w1 := set_trace (trace w ++ [LogInfo "Selecting fold %d" [ArgInt fold];
                                     FileOpen fold_file]) w in
    match files w !! fold_file with
    | None => (Raise (IOError fold_file), w1)
    | Some s =>
        match parse_table (fold_pieces s) with
        | None =>
            (Raise (if rectangular (fold_pieces s) && all_integers (fold_pieces s)
                    then OverflowError else ValueError), w1)
        | Some table =>
            match table !! Z.to_nat fold with
            | None => (Raise IndexError, w1)
            | Some row =>
                (images' ← np_take images row;
                 labels' ← np_take labels row;
                 mret (images', labels')) w1
            end
        end
    end.
Proof.
  intros Hfold. cbv zeta.
  destruct (files w !! fold_file) as [s|] eqn:Hf.
  2:{ unfold pick_fold.
      rewrite bool_decide_true by lia. rewrite decide_True by lia.
      unfold gfile_lines, gfile_read, file_content. run_unfold.
      cbn [files set_trace trace]. rewrite Hf. unfold set_trace.
      cbn [files heap trace entropy seeded]. by rewrite <- app_assoc. }
  destruct (parse_table (fold_pieces s)) as [table|] eqn:Ht.
  2:{ unfold pick_fold.
      rewrite bool_decide_true by lia. rewrite decide_True by lia.
      unfold gfile_lines, gfile_read, file_content, np_array_astype_uint16.
      run_unfold. cbn [files set_trace trace]. rewrite Hf.
      fold (fold_pieces s). rewrite Ht. unfold set_trace.
      cbn [files heap trace entropy seeded]. by rewrite <- app_assoc. }
  destruct (table !! Z.to_nat fold) as [row|] eqn:Hrow.
  { by apply pick_fold_row_run with s table. }
  unfold pick_fold.
  rewrite bool_decide_true by lia. rewrite decide_True by lia.
  set (w1 := set_trace _ w).
  change (py_assert true _ ;; ?k) with k.
  rewrite (run_bind_ok _ _ w
    (set_trace (trace w ++ [LogInfo "Selecting fold %d" [ArgInt fold]]) w) tt)
    by done.
  rewrite (run_bind_ok _ _ _ w1 (file_lines s)).
  2:{ unfold gfile_lines, gfile_read, file_content. run_unfold.
      cbn [files set_trace trace]. rewrite Hf. unfold w1, set_trace.
      cbn [files heap trace entropy seeded]. by rewrite <- app_assoc. }
  fold (fold_pieces s). unfold np_array_astype_uint16. rewrite Ht.
  rewrite (run_bind_ok _ _ w1 w1 table) by done.
  by rewrite (run_bind_raise _ _ w1 w1 IndexError)
    by (apply np_row_out_of_range; [lia | done]).
Qed.

Lemma parse_table_row_nonneg (rows : list (list string)) (t : list (list Z))
    (f : nat) (row : list Z) :
  parse_table rows = Some t → t !! f = Some row → Forall (λ v, 0 ≤ v) row.
Proof.
  intros Ht Hrow.
  pose proof (Forall_lookup_1 _ _ _ _ (parse_table_uint16 _ _ Ht) Hrow) as Hu.
  eapply Forall_impl; [exact Hu |]. intros v Hv. simpl in Hv. lia.
Qed.

Lemma Forall_lt_range (n : nat) (row : list Z) :
  Forall (λ v, 0 ≤ v) row → Forall (λ v, v < Z.of_nat n) row →
  Forall (λ v, 0 ≤ v < Z.of_nat n) row.
Proof. intros H0 Hn. apply Forall_and. by split. Qed.

(** A successful selection, read backwards: what must have held, and what
    the two results are. *)
Lemma pick_fold_Ok_inv (w : world) (images labels : ndarray) (fold : Z)
    (r : ndarray * ndarray) (w' : world) :
  0 ≤ fold ≤ 9 →
  pick_fold images labels fold w = (Ok r, w') →
  ∃ s table row n si dsi m sl dsl,
    files w !! fold_file = Some s ∧
    parse_table (fold_pieces s) = Some table ∧
    table !! Z.to_nat fold = Some row ∧
    dims images = (n, si) :: dsi ∧
    dims labels = (m, sl) :: dsl ∧
    Forall (λ v, v < Z.of_nat n) row ∧
    Forall (λ v, v < Z.of_nat m) row ∧
    let l1 := fresh (dom (heap w)) in
    let h1 := <[l1 := taken (buffer w images) si dsi (Z.to_nat <$> row)]> (heap w) in
    let l2 := fresh (dom h1) in
    r = (NDArray l1 (dtype_of images) (c_dims (length row :: dsi.*1)),
         NDArray l2 (dtype_of labels) (c_dims (length row :: dsl.*1))) ∧
    heap w' = <[l2 := taken (h1 !!! base labels) sl dsl (Z.to_nat <$> row)]> h1.
Proof.
  intros Hfold. rewrite (pick_fold_early_run w images labels fold Hfold).
  cbv zeta. set (w1 := set_trace _ w). intros Hrun.
  destruct (files w !! fold_file) as [s|]; [| done].
  destruct (parse_table (fold_pieces s)) as [table|] eqn:Ht; [| done].
  destruct (table !! Z.to_nat fold) as [row|] eqn:Hrow; [| done].
  pose proof (parse_table_row_nonneg _ _ _ _ Ht Hrow) as Hnn.
  destruct (dims images) as [|[n si] dsi] eqn:Hdi.
  { by rewrite (run_bind_raise _ _ w1 w1 IndexError) in Hrun
      by (by apply np_take_scalar). }
  destruct (decide (Forall (λ v, v < Z.of_nat n) row)) as [Hn|Hn].
  2:{ by rewrite (run_bind_raise _ _ w1 w1 IndexError) in Hrun
        by (by eapply np_take_out_of_range). }
  pose proof (np_take_run w1 images row n si dsi Hdi (Forall_lt_range _ _ Hnn Hn))
    as Htake.
  cbv zeta in Htake. rewrite (run_bind_ok _ _ _ _ _ Htake) in Hrun.
  set (w2 := set_heap _ w1) in Hrun.
  destruct (dims labels) as [|[m sl] dsl] eqn:Hdl.
  { by rewrite (run_bind_raise _ _ w2 w2 IndexError) in Hrun
      by (by apply np_take_scalar). }
  destruct (decide (Forall (λ v, v < Z.of_nat m) row)) as [Hm|Hm].
  2:{ by rewrite (run_bind_raise _ _ w2 w2 IndexError) in Hrun
        by (by eapply np_take_out_of_range). }
  pose proof (np_take_run w2 labels row m sl dsl Hdl (Forall_lt_range _ _ Hnn Hm))
    as Htake2.
  cbv zeta in Htake2. rewrite (run_bind_ok _ _ _ _ _ Htake2) in Hrun.
  injection Hrun as <- <-.
  by exists s, table, row, n, si, dsi, m, sl, dsl.
Qed.


Lemma length_parse_table (rows : list (list string)) (t : list (list Z)) :
  parse_table rows = Some t → length t = length rows.
Proof.
  unfold parse_table. destruct (rectangular rows); [| done].
  intros Ht%mapM_Some%Forall2_length. done.
Qed.


(** ** The rows of the fold table and the spaces of the lines *)

Lemma length_split_on (sep : ascii) (s : string) :
  length (split_on sep s) = S (count_char sep s).
Proof.
  induction s as [|c s IH]; [done |]. cbn [split_on count_char].
  case_decide; cbn [length]; [by rewrite IH |].
  destruct (split_on sep s); [done |]. cbn [length] in *. lia.
Qed.

Lemma length_fold_piece (line : string) :
  length (but_last (split_on " " line)) = count_char " " line.
Proof.
  unfold but_last. rewrite length_take, length_split_on. lia.
Qed.

Lemma rectangular_lengths {A} (rows : list (list A)) (i j : nat) (r1 r2 : list A) :
  rectangular rows = true → rows !! i = Some r1 → rows !! j = Some r2 →
  length r1 = length r2.
Proof.
  destruct rows as [|r0 rs]; [by rewrite lookup_nil |].
  cbn [rectangular]. intros Hrect H1 H2. rewrite forallb_forall in Hrect.
  assert (Hall : ∀ k p, (r0 :: rs) !! k = Some p → length p = length r0).
  { intros [|k] p Hk; [by injection Hk as -> |]. cbn in Hk.
    eapply bool_decide_eq_true_1, Hrect.
    apply list_elem_of_In. by eapply list_elem_of_lookup_2. }
  by rewrite (Hall _ _ H1), (Hall _ _ H2).
Qed.


(** ** Fold selection: the results are copies *)


(** ** The unlabeled split: what the run leaves behind *)

Lemma get_data_unlabeled_full_run (w : world) (max_num : Z) (s : string)
    (count : nat) :
  files w !! unlabeled_file = Some s →
  String.length s = (count * 27648)%nat →
  Z.of_nat count ≤ max_num →
  let l := fresh (dom (heap w)) in
  get_data "unlabeled" max_num w =
    (Ok (RTuple (NDArray l uint8 (image_dims count)) None),
     World (files w) (<[l := bytes_of_string s]> (heap w))
       (trace w ++ [LogInfo "Extracting %s" [ArgStr unlabeled_file];
                    FileOpen unlabeled_file])
       (entropy w) (seeded w)).
Proof.
  intros Hf Hlen Hle l.
  pose proof (extract_images_run w unlabeled_file s count Hf Hlen) as Hrun.
  cbv zeta in Hrun. set (w1 := World _ _ _ _ _) in *.
  unfold get_data. rewrite !decide_False by done. rewrite decide_True by done.
  fold unlabeled_file. rewrite (run_bind_ok _ _ w w1 _ Hrun).
  rewrite (run_bind_ok _ _ w1 w1 (Z.of_nat count)) by done.
  by rewrite decide_False by lia.
Qed.

Lemma get_data_unlabeled_sample_run (w : world) (max_num : Z) (s : string)
    (count : nat) :
  files w !! unlabeled_file = Some s →
  String.length s = (count * 27648)%nat →
  0 ≤ max_num < Z.of_nat count →
  let l := fresh (dom (heap w)) in
  let h1 := <[l := bytes_of_string s]> (heap w) in
  ∃ idx : list nat,
    length idx = Z.to_nat max_num ∧
    get_data "unlabeled" max_num w =
      (Ok (RTuple (NDArray (fresh (dom h1)) uint8
                     (c_dims [length idx; 96; 96; 3]%nat)) None),
       World (files w)
         (<[fresh (dom h1) :=
              taken (bytes_of_string s) 27648
                [(96, 1); (96, 96); (3, 9216)]%nat idx]> h1)
         (trace w ++ [LogInfo "Extracting %s" [ArgStr unlabeled_file];
                      FileOpen unlabeled_file])
         (entropy w) (S (seeded w))).
Proof.
  intros Hf Hlen Hmax l h1.
  pose proof (extract_images_run w unlabeled_file s count Hf Hlen) as Hrun.
  cbv zeta in Hrun. fold l in Hrun. fold h1 in Hrun.
  set (full := NDArray l uint8 (image_dims count)) in *.
  set (w1 := World _ _ _ _ _) in *.
  unfold get_data. rewrite !decide_False by done. rewrite decide_True by done.
  fold unlabeled_file. rewrite (run_bind_ok _ _ w w1 _ Hrun).
  rewrite (run_bind_ok _ _ w1 w1 (Z.of_nat count)) by done.
  rewrite decide_True by lia.
  set (rng := MkRandomState (entropy w1 (seeded w1)) 0).
  set (w2 := set_seeded (S (seeded w1)) w1).
  rewrite (run_bind_ok _ _ w1 w2 rng) by done.
  rewrite (run_bind_ok _ _ w2 w2 (Z.of_nat count)) by done.
  destruct (rng_choice_run rng (Z.of_nat count) max_num w2)
    as (idx & st' & Hch & Hnd & Hlenidx & Hlt); [lia | lia |].
  rewrite Nat2Z.id in Hlt.
  rewrite (run_bind_ok _ _ w2 w2 (Z.of_nat <$> idx, st') Hch). cbv beta iota.
  assert (Hidx : Forall (λ v, 0 ≤ v < Z.of_nat count) (Z.of_nat <$> idx)).
  { apply Forall_fmap. eapply Forall_impl; [exact Hlt |].
    intros i Hi. simpl in *. lia. }
  pose proof (np_take_run w2 full (Z.of_nat <$> idx) count 27648
    [(96, 1); (96, 96); (3, 9216)]%nat eq_refl Hidx) as Htake.
  cbv zeta in Htake. rewrite (run_bind_ok _ _ _ _ _ Htake).
  exists idx. split; [done |].
  assert (Hback : Z.to_nat <$> (Z.of_nat <$> idx) = idx).
  { rewrite <- list_fmap_compose. rewrite <- (list_fmap_id idx) at 2.
    apply list_fmap_ext. intros _ i _. apply Nat2Z.id. }
  assert (Hbuf : buffer w2 full = bytes_of_string s)
    by apply lookup_total_insert_eq.
  rewrite Hback, Hbuf, length_fmap. reflexivity.
Qed.



(** ** Loading the training split and selecting a fold *)


(** ** What loading never does *)

Lemma frames_ret {A} (a : A) : frames (mret a).
Proof. by intros w r w' [= <- <-]. Qed.

Lemma frames_raise {A} (e : exn) : frames (raise (A := A) e).
Proof. by intros w r w' [= <- <-]. Qed.

Lemma frames_bind {A B} (m : M A) (f : A → M B) :
  frames m → (∀ a, frames (f a)) → frames (m ≫= f).
Proof.
  intros Hm Hf w r w'. rewrite run_bind.
  destruct (m w) as [[a|e] w1] eqn:Hmw; intros Hr.
  - destruct (Hm _ _ _ Hmw) as (Hfs & Hh & Ht).
    destruct (Hf a _ _ _ Hr) as (Hfs' & Hh' & Ht').
    split_and!; [congruence | by transitivity (heap w1) | by transitivity (trace w1)].
  - injection Hr as <- <-. apply (Hm _ _ _ Hmw).
Qed.

Lemma frames_emit (e : event) : frames (emit e).
Proof.
  intros w r w' [= <- <-]. cbn [files heap trace set_trace].
  split_and!; try done. by apply prefix_app_r.
Qed.

Lemma frames_gfile_read (path : string) : frames (gfile_read path).
Proof.
  apply frames_bind; [apply frames_emit |]. intros _ w r w'.
  unfold file_content. destruct (files w !! path); by intros [= <- <-].
Qed.

Lemma frames_alloc (buf : list Z) : frames (alloc buf).
Proof.
  intros w r w' [= <- <-]. cbn [files heap trace set_heap].
  split_and!; try done. apply alloc_subseteq.
Qed.

Lemma frames_read_buf (l : loc) : frames (read_buf l).
Proof. by intros w r w' [= <- <-]. Qed.

Lemma frames_np_fromstring_uint8 (s : string) : frames (np_fromstring_uint8 s).
Proof.
  apply frames_bind; [apply frames_alloc |]. intros l. apply frames_ret.
Qed.

Lemma frames_np_reshape (a : ndarray) (newshape : list Z) :
  frames (np_reshape a newshape).
Proof.
  unfold np_reshape. destruct (resolve_shape _ _) as [sh|]; [| apply frames_raise].
  case_decide; [apply frames_ret |].
  apply frames_bind; [apply frames_read_buf |]. intros buf.
  apply frames_bind; [apply frames_alloc |]. intros l. apply frames_ret.
Qed.

Lemma frames_np_transpose (a : ndarray) (axes : list nat) :
  frames (np_transpose a axes).
Proof. unfold np_transpose. case_decide; [apply frames_ret | apply frames_raise]. Qed.

Lemma frames_np_take (a : ndarray) (idx : list Z) : frames (np_take a idx).
Proof.
  unfold np_take. destruct (dims a) as [|[n s] ds]; [apply frames_raise |].
  destruct (mapM _ _) as [rows|]; [| apply frames_raise].
  apply frames_bind; [apply frames_read_buf |]. intros buf.
  apply frames_bind; [apply frames_alloc |]. intros l. apply frames_ret.
Qed.

Lemma frames_py_len (a : ndarray) : frames (py_len a).
Proof.
  unfold py_len. destruct (dims a) as [|[n s] ds];
    [apply frames_raise | apply frames_ret].
Qed.

Lemma frames_new_RandomState : frames new_RandomState.
Proof. by intros w r w' [= <- <-]. Qed.

Lemma frames_rng_choice (st : RandomState) (n size : Z) :
  frames (rng_choice st n size).
Proof.
  unfold rng_choice. repeat case_decide; try apply frames_raise.
  destruct (permutation _ _). apply frames_ret.
Qed.

Lemma frames_extract_images (filename : string) (shape : list Z) :
  frames (extract_images filename shape).
Proof.
  unfold extract_images, logging_info.
  apply frames_bind; [apply frames_emit |]. intros _.
  apply frames_bind; [apply frames_gfile_read |]. intros s.
  apply frames_bind; [apply frames_np_fromstring_uint8 |]. intros a.
  apply frames_bind; [apply frames_np_reshape |]. intros b.
  apply frames_bind; [apply frames_np_transpose |]. intros c.
  apply frames_ret.
Qed.

(** The decrement writes into the buffer [extract_labels] has just made,
    so the whole of it changes no buffer that existed. *)
Lemma frames_extract_labels (filename : string) : frames (extract_labels filename).
Proof.
  intros w r w' Hrun. destruct (files w !! filename) as [s|] eqn:Hf.
  - rewrite (extract_labels_run _ _ _ Hf) in Hrun. injection Hrun as <- <-.
    cbn [files heap trace]. split_and!; try done.
    + apply alloc_subseteq.
    + by apply prefix_app_r.
  - rewrite (extract_labels_missing_run _ _ Hf) in Hrun. injection Hrun as <- <-.
    cbn [files heap trace set_trace]. split_and!; try done.
    by apply prefix_app_r.
Qed.

Lemma frames_get_data (name : string) (max_num : Z) : frames (get_data name max_num).
Proof.
  unfold get_data. repeat case_decide.
  - apply frames_bind; [apply frames_extract_images |]. intros images.
    apply frames_bind; [apply frames_extract_labels |]. intros labels.
    apply frames_ret.
  - apply frames_bind; [apply frames_extract_images |]. intros images.
    apply frames_bind; [apply frames_extract_labels |]. intros labels.
    apply frames_ret.
  - apply frames_bind; [apply frames_extract_images |]. intros res.
    apply frames_bind; [apply frames_py_len |]. intros num_images.
    case_decide; [| apply frames_ret].
    apply frames_bind; [apply frames_new_RandomState |]. intros rng.
    apply frames_bind; [apply frames_py_len |]. intros n.
    apply frames_bind; [apply frames_rng_choice |]. intros [idx st].
    apply frames_bind; [apply frames_np_take |]. intros sample.
    apply frames_ret.
  - apply frames_ret.
Qed.

(** X14: loading writes no file and changes no array that exists: whatever
    the arguments, the files and the outcome, after [extract_images],
    [extract_labels] and [get_data] the file system is the same, every
    buffer that was in the heap holds what it held, and the trace of
    events has only grown. *)
Theorem loading_frame (w : world) (filename name : string) (shape : list Z)
    (max_num : Z) :
  frames (extract_images filename shape) ∧
  frames (extract_labels filename) ∧
  frames (get_data name max_num) ∧
  (∀ l buf, heap w !! l = Some buf →
     heap (extract_images filename shape w).2 !! l = Some buf ∧
     heap (extract_labels filename w).2 !! l = Some buf ∧
     heap (get_data name max_num w).2 !! l = Some buf).
Proof.
  split_and!.
  - apply frames_extract_images.
  - apply frames_extract_labels.
  - apply frames_get_data.
  - intros l buf Hl. split_and!.
    + destruct (extract_images filename shape w) as [r w'] eqn:Hrun.
      destruct (frames_extract_images _ _ _ _ _ Hrun) as (_ & Hsub & _).
      by eapply lookup_weaken.
    + destruct (extract_labels filename w) as [r w'] eqn:Hrun.
      destruct (frames_extract_labels _ _ _ _ Hrun) as (_ & Hsub & _).
      by eapply lookup_weaken.
    + destruct (get_data name max_num w) as [r w'] eqn:Hrun.
      destruct (frames_get_data _ _ _ _ _ Hrun) as (_ & Hsub & _).
      by eapply lookup_weaken.
Qed.

(** ** The unlabeled split: how it fails *)

(** X15: [get_data('unlabeled', max_num)] on a missing file raises an
    [IOError] naming it, on a file whose length is no multiple of 27648 a
    [ValueError]; in both cases no generator was seeded, whatever
    [max_num]. *)
Theorem get_data_unlabeled_failures (w : world) (max_num : Z) :
  (files w !! unlabeled_file = None →
     (get_data "unlabeled" max_num w).1 = Raise (IOError unlabeled_file) ∧
     seeded (get_data "unlabeled" max_num w).2 = seeded w ∧
     heap (get_data "unlabeled" max_num w).2 = heap w) ∧
  (∀ s, files w !! unlabeled_file = Some s →
     (String.length s mod 27648 ≠ 0)%nat →
     (get_data "unlabeled" max_num w).1 = Raise ValueError ∧
     seeded (get_data "unlabeled" max_num w).2 = seeded w).
Proof.
  split.
  - intros Hf.
    pose proof (extract_images_missing_run w _ IMAGE_SHAPE Hf) as Himg.
    unfold get_data. rewrite !decide_False by done. rewrite decide_True by done.
    fold unlabeled_file. by rewrite (run_bind_raise _ _ w _ _ Himg).
  - intros s Hf Hmod.
    pose proof (extract_images_short_run w _ s Hf Hmod) as Himg.
    unfold get_data. rewrite !decide_False by done. rewrite decide_True by done.
    fold unlabeled_file. by rewrite (run_bind_raise _ _ w _ _ Himg).
Qed.

(** ** The further properties at concrete inputs *)

Ltac keys_differ := let H := fresh in intros H; vm_compute in H; discriminate H.

Lemma train_files_X : train_files !! (DATADIR +:+ "train" +:+ "_X.bin") = Some (raw_images 3).
Proof. apply lookup_insert_eq. Qed.

Lemma train_files_y : train_files !! (DATADIR +:+ "train" +:+ "_y.bin") = Some raw_labels.
Proof.
  unfold train_files. rewrite lookup_insert_ne by keys_differ.
  apply lookup_insert_eq.
Qed.

Lemma train_files_fold :
  train_files !! fold_file = Some ("2 0 " +:+ String newline EmptyString).
Proof.
  unfold train_files. rewrite !lookup_insert_ne by keys_differ.
  apply lookup_singleton_eq.
Qed.

Lemma extract_images_any_shape_witness :
  ∃ a w',
    extract_images "img.bin" [2; 3; 1] (fresh_world {[ "img.bin" := "abcdef" ]})
    = (Ok a, w') ∧
    shape a = [1; 2; 3; 1]%nat ∧
    getitem w' a [0; 1; 2; 0]%nat = Some 102.
Proof.
  destruct (extract_images_any_shape (fresh_world {[ "img.bin" := "abcdef" ]})
              "img.bin" "abcdef" 1 2 3 1)
    as (a & w' & Hrun & _ & Hsh & _ & Hget).
  - vm_compute. reflexivity.
  - lia.
  - lia.
  - lia.
  - reflexivity.
  - exists a, w'. split; [exact Hrun |]. split; [exact Hsh |].
    destruct (Hget 0 1 2 0)%nat as (b & Hb & ->); [lia | lia | lia | lia |].
    rewrite <- Hb. vm_compute. reflexivity.
Defined.


Lemma extract_labels_roundtrip_witness :
  ∃ a w',
    extract_labels "test_y.bin" (fresh_world {[ "test_y.bin" := raw_labels ]})
    = (Ok a, w') ∧
    string_of_bytes ((λ v, (v + 1) mod 256) <$> elements w' a) = raw_labels.
Proof.
  apply extract_labels_roundtrip. vm_compute. reflexivity.
Defined.

Lemma get_data_labeled_witness :
  ∃ images labels w',
    get_data "train" 20000 (fresh_world train_files)
    = (Ok (RTuple images (Some labels)), w') ∧
    shape images = [3; 96; 96; 3]%nat ∧
    elements w' labels = [0; 9; 255].
Proof.
  destruct (get_data_labeled (fresh_world train_files) "train" 20000
              (raw_images 3) raw_labels 3)
    as (images & labels & w' & Hrun & Hsh & _ & _ & Hel & _).
  - left. reflexivity.
  - apply train_files_X.
  - apply length_raw_images.
  - apply train_files_y.
  - exists images, labels, w'. split; [exact Hrun |]. split; [exact Hsh |].
    rewrite Hel. vm_compute. reflexivity.
Defined.

Lemma get_data_labeled_missing_witness :
  get_data "test" 20000 (fresh_world train_files) =
    (Raise (IOError (DATADIR +:+ "test" +:+ "_X.bin")),
     set_trace
       [LogInfo "Extracting %s" [ArgStr (DATADIR +:+ "test" +:+ "_X.bin")];
        FileOpen (DATADIR +:+ "test" +:+ "_X.bin")] (fresh_world train_files)).
Proof.
  apply (get_data_labeled_missing (fresh_world train_files) "test" 20000).
  - right. reflexivity.
  - unfold fresh_world, train_files. cbn [files].
    rewrite !lookup_insert_ne by keys_differ.
    apply lookup_singleton_ne. keys_differ.
Defined.






